(** * sphinxcontrib.mscgen: a shallow embedding and its properties

    The module [sphinxcontrib/mscgen.py] is a Sphinx extension that renders
    mscgen message-sequence charts by running the external [mscgen] program.
    This development embeds it function by function.

    - Python [str] is a list of Unicode code points, [bytes] a list of
      [Byte.byte].
    - Effects (the file system, the calls to [Popen] and [communicate],
      [uuid4], the translator's [body] list) are threaded through a state
      and exception monad [M].
    - What the module takes from its environment (the behaviour of the
      renderer executable, the host translator's [starttag] and [encode],
      whether [cairosvg] can be imported) is a record passed explicitly.
    - The functions that call the system are embedded twice: first over
      calls that succeed (the directory can be made, the file is written in
      full), for the statements about what is rendered, fed and emitted;
      then, in module [IO], over calls that may raise, as a record [Faults]
      tells, for the statements about what happens when something fails.
      Without faults the two are the same functions
      ([io_render_msc_no_faults]). *)

From Stdlib Require Import NArith ZArith Strings.Ascii Strings.String Strings.Byte.
From stdpp Require Import base option list gmap strings.

Local Open Scope N_scope.
Local Open Scope list_scope.

(** ** Python strings and bytes *)

(** A Python [str]: its code points, in order. *)
Abbreviation pystr := (list N).

(** A Python [bytes] object. *)
Abbreviation pybytes := (list byte).

(** A string literal of the source, as a [pystr]. *)
Fixpoint lit (s : string) : pystr :=
  match s with
  | EmptyString => []
  | String a s' => N_of_ascii a :: lit s'
  end.
Arguments lit _%_string.

Definition nl : N := 10.       (* line feed *)
Definition dquote : N := 34.   (* double quote *)
Definition percent : N := 37.  (* percent sign *)
Definition slash : N := 47.    (* forward slash *)
Definition lbrace : N := 123.  (* opening brace *)
Definition rbrace : N := 125.  (* closing brace *)

(** [sep.join(parts)]. *)
Fixpoint str_join (sep : pystr) (parts : list pystr) : pystr :=
  match parts with
  | [] => []
  | [p] => p
  | p :: rest => p ++ sep ++ str_join sep rest
  end.

(** [s.split(sep)] for a one-character separator. *)
Fixpoint str_split (sep : N) (s : pystr) : list pystr :=
  match s with
  | [] => [[]]
  | c :: s' =>
      if c =? sep then [] :: str_split sep s'
      else
        match str_split sep s' with
        | [] => [[c]]
        | p :: ps => (c :: p) :: ps
        end
  end.

(** [s.startswith(p)]. *)
Fixpoint startswith (s p : pystr) : bool :=
  match p, s with
  | [], _ => true
  | _ :: _, [] => false
  | c :: p', d :: s' => (c =? d) && startswith s' p'
  end.

(** [s.endswith(p)]. *)
Definition endswith (s p : pystr) : bool := startswith (rev s) (rev p).

(** [p in s] for strings: [p] occurs in [s] as a contiguous run. *)
Fixpoint str_contains (s p : pystr) : bool :=
  startswith s p ||
  match s with
  | [] => false
  | _ :: s' => str_contains s' p
  end.

(** [a == b] on strings. *)
Definition str_eqb (a b : pystr) : bool := bool_decide (a = b).

(** [x in l] for a list of strings. *)
Definition list_contains (l : list pystr) (x : pystr) : bool :=
  existsb (str_eqb x) l.

(** [str.isspace] on one code point: the characters [str.strip()] removes. *)
Definition is_space (c : N) : bool :=
  ((9 <=? c) && (c <=? 13)) || ((28 <=? c) && (c <=? 32)) ||
  (c =? 133) || (c =? 160) || (c =? 5760) ||
  ((8192 <=? c) && (c <=? 8202)) || (c =? 8232) || (c =? 8233) ||
  (c =? 8239) || (c =? 8287) || (c =? 12288).

Fixpoint lstrip (s : pystr) : pystr :=
  match s with
  | c :: s' => if is_space c then lstrip s' else s
  | [] => []
  end.

(** [s.strip()]. *)
Definition strip (s : pystr) : pystr := rev (lstrip (rev (lstrip s))).

(** ** Exceptions and results *)

Inductive exn : Type :=
  | MscgenError (msg : pystr)        (* the module's own SphinxError *)
  | OSError (errno : Z)              (* raised by Popen *)
  | UnicodeEncodeError (codec : pystr) (position : nat)
  | NameError (name : pystr)
  | TypeError (msg : pystr)
  | ValueError (msg : pystr)
  | IndexError (msg : pystr)
  | SkipNode.                        (* docutils.nodes.SkipNode *)

Inductive result (A : Type) : Type :=
  | Returned (a : A)
  | Raised (e : exn).
Arguments Returned {A} a.
Arguments Raised {A} e.

(** ** Formatting *)

(** [template % args] restricted to the [%s] conversion and the [%%]
    escape, the only ones the module uses; the arguments are already
    strings.  Too few or too many arguments raise [TypeError] as in
    Python. *)
Fixpoint percent_format (template : pystr) (args : list pystr) : result pystr :=
  match template with
  | [] =>
      match args with
      | [] => Returned []
      | _ :: _ =>
          Raised (TypeError (lit "not all arguments converted during string formatting"))
      end
  | c :: rest =>
      if c =? percent then
        match rest with
        | d :: rest' =>
            if d =? 115 (* the letter s *) then
              match args with
              | a :: args' =>
                  match percent_format rest' args' with
                  | Returned r => Returned (a ++ r)
                  | Raised e => Raised e
                  end
              | [] => Raised (TypeError (lit "not enough arguments for format string"))
              end
            else if d =? percent then
              match percent_format rest' args with
              | Returned r => Returned (percent :: r)
              | Raised e => Raised e
              end
            else Raised (ValueError (lit "unsupported format character"))
        | [] => Raised (ValueError (lit "incomplete format"))
        end
      else
        match percent_format rest args with
        | Returned r => Returned (c :: r)
        | Raised e => Raised e
        end
  end.

(** [template.format(args...)] for the fragment without field names: literal
    text, the escapes of a doubled brace, and the automatic field made of
    an opening brace directly followed by a closing one.  Surplus
    positional arguments are ignored, as in Python.  Named, numbered or
    converted fields are outside this fragment and reported through
    [ValueError]; no template of the module contains one. *)
Fixpoint str_format (template : pystr) (args : list pystr) : result pystr :=
  match template with
  | [] => Returned []
  | c :: rest =>
      if c =? lbrace then
        match rest with
        | d :: rest' =>
            if d =? lbrace then
              match str_format rest' args with
              | Returned r => Returned (lbrace :: r)
              | Raised e => Raised e
              end
            else if d =? rbrace then
              match args with
              | a :: args' =>
                  match str_format rest' args' with
                  | Returned r => Returned (a ++ r)
                  | Raised e => Raised e
                  end
              | [] =>
                  Raised (IndexError (lit "Replacement index out of range for positional args tuple"))
              end
            else Raised (ValueError (lit "replacement field outside the modelled fragment"))
        | [] => Raised (ValueError (lit "Single '{' encountered in format string"))
        end
      else if c =? rbrace then
        match rest with
        | d :: rest' =>
            if d =? rbrace then
              match str_format rest' args with
              | Returned r => Returned (rbrace :: r)
              | Raised e => Raised e
              end
            else Raised (ValueError (lit "Single '}' encountered in format string"))
        | [] => Raised (ValueError (lit "Single '}' encountered in format string"))
        end
      else
        match str_format rest args with
        | Returned r => Returned (c :: r)
        | Raised e => Raised e
        end
  end.

(** One hexadecimal digit, lower case. *)
Definition hex_digit (n : N) : N :=
  if n <? 10 then 48 + n else 87 + n.

(** The escaped form of one byte inside [repr(bytes)]. *)
Definition repr_byte (quote : N) (b : byte) : pystr :=
  let c := Byte.to_N b in
  if (c =? quote) || (c =? 92) then [92; c]
  else if c =? 9 then lit "\t"
  else if c =? 10 then lit "\n"
  else if c =? 13 then lit "\r"
  else if (c <? 32) || (127 <=? c) then
    lit "\x" ++ [hex_digit (c / 16); hex_digit (c mod 16)]
  else [c].

(** [str(b)] for a [bytes] object: its [repr]. *)
Definition bytes_str (b : pybytes) : pystr :=
  let has c := existsb (fun x => Byte.to_N x =? c) b in
  let quote := if has 39 && negb (has dquote) then dquote else 39 in
  [98; quote] ++ concat (map (repr_byte quote) b) ++ [quote].

(** The Python values the module formats. *)
Inductive pyobj : Type :=
  | PyStr (s : pystr)
  | PyBytes (b : pybytes).

Definition py_str (o : pyobj) : pystr :=
  match o with
  | PyStr s => s
  | PyBytes b => bytes_str b
  end.

(** ** Text encodings *)

(** [s.encode('iso-8859-1')], scanning from position [pos]: one byte per
    code point, [UnicodeEncodeError] at the first code point above 255. *)
Fixpoint encode_iso_8859_1_from (pos : nat) (s : pystr) : result pybytes :=
  match s with
  | [] => Returned []
  | c :: s' =>
      match Byte.of_N c with
      | Some b =>
          match encode_iso_8859_1_from (S pos) s' with
          | Returned r => Returned (b :: r)
          | Raised e => Raised e
          end
      | None => Raised (UnicodeEncodeError (lit "latin-1") pos)
      end
  end.

Definition encode_iso_8859_1 (s : pystr) : result pybytes :=
  encode_iso_8859_1_from 0 s.

(** The byte of a number below 256. *)
Definition byte_of (n : N) : byte :=
  match Byte.of_N n with
  | Some b => b
  | None => x00
  end.



(** ** Paths *)

(** [os.path.join(a, b)] of [posixpath]. *)
Definition os_path_join (a b : pystr) : pystr :=
  if startswith b [slash] then b
  else if match a with [] => true | _ => endswith a [slash] end then a ++ b
  else a ++ [slash] ++ b.

(** ** The document tree, the configuration and the translator *)

(** [class mscgen(nodes.General, nodes.Element)]: the placeholder node;
    [code] is its ['code'] attribute. *)
Record mscgen : Type := { code : pystr }.

(** The three configuration values [setup] registers. *)
Module config.
Record t : Type := {
  mscgen : pystr;              (* default: the string mscgen *)
  mscgen_args : list pystr;    (* default: the empty list *)
  mscgen_js : option pystr     (* default: None *)
}.
End config.

(** [self.builder].  [imgpath] is [None] when the builder has no such
    attribute; an empty string is the other falsy case. *)
Record Builder : Type := {
  config : config.t;
  imgpath : option pystr;
  outdir : pystr;
  supported_image_types : list pystr
}.

(** [self]: the part of the host translator the module reads.  [starttag]
    and [encode] are methods of the host framework; [body], which the
    module appends to, lives in the [World]. *)
Record Translator : Type := {
  builder : Builder;
  starttag : mscgen -> pystr -> list (pystr * pystr) -> pystr;
  encode : pystr -> pystr
}.

(** ** The environment and the world *)

(** A started renderer process: what [communicate(input)] gives, as
    (return code, standard output, standard error). *)
Abbreviation Process := (pybytes -> Z * pybytes * pybytes)%type.

(** What the operating system and the installed packages decide. *)
Record Env : Type := {
  (* Popen on an argument vector: an errno when the executable cannot be
     started, the process otherwise *)
  popen : list pystr -> Z + Process;
  (* str(uuid4()) at the n-th call *)
  uuid4_str : nat -> pystr;
  (* cairosvg.svg2pdf when cairosvg can be imported *)
  cairosvg : option (pybytes -> result pybytes)
}.

(** What the module does to the outside, in order.  [EvPopen] records a
    call of [Popen], whether or not the executable could be started. *)
Inductive event : Type :=
  | EvPopen (args : list pystr)
  | EvCommunicate (input : pybytes).

Record World : Type := {
  files : gmap pystr pybytes;   (* regular files and their contents *)
  dirs : gset pystr;            (* directories *)
  trace : list event;           (* process events, oldest first *)
  uuid_calls : nat;             (* calls to uuid4 so far *)
  body : list pystr             (* self.body *)
}.

(** ** The monad of effects *)

Definition M (A : Type) : Type := World -> result A * World.

Definition ret {A} (a : A) : M A := fun w => (Returned a, w).

Definition raise {A} (e : exn) : M A := fun w => (Raised e, w).

Definition bind {A B} (c : M A) (k : A -> M B) : M B :=
  fun w =>
    match c w with
    | (Returned a, w') => k a w'
    | (Raised e, w') => (Raised e, w')
    end.

Notation "x <- c1 ;; c2" := (bind c1 (fun x => c2))
  (at level 100, c1 at next level, right associativity).
Notation "c1 ;; c2" := (bind c1 (fun _ => c2))
  (at level 100, right associativity).

(** A pure computation that may raise. *)
Definition lift {A} (r : result A) : M A := fun w => (r, w).

(** [try: c  except OSError as err: handler(err)]. *)
Definition try_except_OSError {A} (c : M A) (handler : exn -> M A) : M A :=
  fun w =>
    match c w with
    | (Raised (OSError errno), w') => handler (OSError errno) w'
    | other => other
    end.

Definition log (ev : event) (w : World) : World :=
  {| files := files w; dirs := dirs w; trace := trace w ++ [ev];
     uuid_calls := uuid_calls w; body := body w |}.

(** [Popen(args, stdout=PIPE, stdin=PIPE, stderr=PIPE)], raising nothing
    but the [OSError] of an executable that cannot be started; [IO.Popen]
    is the call that may raise otherwise. *)
Definition Popen (E : Env) (args : list pystr) : M Process :=
  fun w =>
    match popen E args with
    | inl errno => (Raised (OSError errno), log (EvPopen args) w)
    | inr p => (Returned p, log (EvPopen args) w)
    end.

(** [p.communicate(input)] followed by reading [p.returncode]. *)
Definition communicate (p : Process) (input : pybytes) : M (Z * pybytes * pybytes) :=
  fun w => (Returned (p input), log (EvCommunicate input) w).

(** [sphinx.util.ensuredir(path)] when the directory can be made: it
    exists afterwards.  [IO.ensuredir] is the call that may raise. *)
Definition ensuredir (path : pystr) : M unit :=
  fun w =>
    (Returned tt,
     {| files := files w; dirs := {[path]} ∪ dirs w; trace := trace w;
        uuid_calls := uuid_calls w; body := body w |}).

(** [str(uuid4())]. *)
Definition uuid4 (E : Env) : M pystr :=
  fun w =>
    (Returned (uuid4_str E (uuid_calls w)),
     {| files := files w; dirs := dirs w; trace := trace w;
        uuid_calls := S (uuid_calls w); body := body w |}).

(** [with open(fpath, 'wb') as out: out.write(data)] when the file can be
    opened and written in full.  [IO.write_file] is the block that may
    raise. *)
Definition write_file (fpath : pystr) (data : pybytes) : M unit :=
  fun w =>
    (Returned tt,
     {| files := <[fpath := data]> (files w); dirs := dirs w; trace := trace w;
        uuid_calls := uuid_calls w; body := body w |}).

(** [self.body.append(text)]. *)
Definition body_append (text : pystr) : M unit :=
  fun w =>
    (Returned tt,
     {| files := files w; dirs := dirs w; trace := trace w;
        uuid_calls := uuid_calls w; body := body w ++ [text] |}).

(** ** The module *)

Definition image_svg : pystr := lit "image/svg+xml".
Definition application_pdf : pystr := lit "application/pdf".
Definition image_png : pystr := lit "image/png".

(** [preferred_formats]: the module-level [try: import cairosvg]. *)
Definition preferred_formats (E : Env) : list pystr :=
  match cairosvg E with
  | Some _ => [image_svg; application_pdf; image_png]
  | None => [image_svg; image_png]
  end.

(** [Mscgen.run]; [content] is [self.content], the lines of the body. *)
Definition Mscgen_run (content : list pystr) : list mscgen :=
  let node := {| code := str_join [nl] content |} in
  [node].

(** The template of [MscgenSimple.run]. *)
Definition msc_template : pystr :=
  lit "msc {" ++ [nl] ++ lit "%s" ++ [nl] ++ lit "}" ++ [nl].

(** [MscgenSimple.run]. *)
Definition MscgenSimple_run (content : list pystr) : result (list mscgen) :=
  match percent_format msc_template [str_join [nl] content] with
  | Returned text => Returned [ {| code := text |} ]
  | Raised e => Raised e
  end.

(** The loop of [determine_format] over the preferred formats. *)
Fixpoint determine_format_loop (preferred supported : list pystr) : option pystr :=
  match preferred with
  | [] => None
  | fmt :: preferred' =>
      if list_contains supported fmt then Some fmt
      else determine_format_loop preferred' supported
  end.

Definition determine_format (E : Env) (supported : list pystr) : option pystr :=
  determine_format_loop (preferred_formats E) supported.

(** The template of the error message of [render_msc_native]. *)
Definition cannot_render_template : pystr :=
  lit "Cannot render the following mscgen code:" ++ [nl] ++ lit "%s" ++
  [nl; nl] ++ lit "Error: %s".

Definition render_msc_native (E : Env) (self : Translator) (code : pystr)
    (fmt : pystr) : M pybytes :=
  let mscgen_args :=
    [config.mscgen (config (builder self))] ++
    config.mscgen_args (config (builder self)) ++
    [lit "-T"; fmt; lit "-o"; lit "-"] in
  p <- try_except_OSError (Popen E mscgen_args) (fun err => raise err) ;;
  input <- lift (encode_iso_8859_1 code) ;;
  out <- communicate p input ;;
  match out with
  | (returncode, img, err) =>
      if bool_decide (returncode ≠ 0%Z) then
        msg <- lift (str_format cannot_render_template [py_str (PyStr code); py_str (PyBytes err)]) ;;
        raise (MscgenError msg)
      else ret img
  end.

Definition render_msc (E : Env) (self : Translator) (code outpath : pystr)
    (fmt : option pystr) : M (pystr * pystr) :=
  ensuredir outpath ;;
  uuid <- uuid4 E ;;
  bname <- lift (percent_format (lit "%s-%s") [lit "mscgen"; uuid]) ;;
  if bool_decide (fmt = Some image_png) then
    let ext := lit "png" in
    name <- lift (percent_format (lit "%s.%s") [bname; ext]) ;;
    let fpath := os_path_join outpath name in
    png <- render_msc_native E self code (lit "png") ;;
    write_file fpath png ;;
    ret (bname, ext)
  else
    svg <- render_msc_native E self code (lit "svg") ;;
    if bool_decide (fmt = Some image_svg) then
      let ext := lit "svg" in
      name <- lift (percent_format (lit "%s.%s") [bname; ext]) ;;
      let fpath := os_path_join outpath name in
      write_file fpath svg ;;
      ret (bname, ext)
    else if bool_decide (fmt = Some application_pdf) then
      let ext := lit "pdf" in
      name <- lift (percent_format (lit "%s.%s") [bname; ext]) ;;
      let fpath := os_path_join outpath name in
      match cairosvg E with
      | None => raise (NameError (lit "cairosvg"))
      | Some svg2pdf =>
          pdf <- lift (svg2pdf svg) ;;
          write_file fpath pdf ;;
          ret (bname, ext)
      end
    else raise (NameError (lit "MscGenError")).

(** The template of the image tag of [render_msc_html]. *)
Definition img_template : pystr :=
  lit "<img src=" ++ [dquote] ++ lit "%s.%s" ++ [dquote] ++ lit " alt=" ++
  [dquote] ++ lit "%s" ++ [dquote] ++ lit "/>" ++ [nl].

Definition render_msc_html (E : Env) (self : Translator) (node : mscgen)
    (code : pystr) : M unit :=
  let imgpath :=
    match imgpath (builder self) with
    | Some (c :: p) => c :: p
    | _ => lit "."
    end in
  let outdir := os_path_join (outdir (builder self)) imgpath in
  r <- render_msc E self code outdir
         (determine_format E (supported_image_types (builder self))) ;;
  match r with
  | (fn, ext) =>
      body_append (starttag self node (lit "p") [(lit "class", lit "mscgen")]) ;;
      text <- lift (percent_format img_template
                      [os_path_join imgpath fn; ext; strip (encode self code)]) ;;
      body_append text ;;
      body_append (lit "</p>" ++ [nl]) ;;
      raise SkipNode
  end.

Definition render_msc_html_js (self : Translator) (node : mscgen)
    (code : pystr) : M unit :=
  body_append (starttag self node (lit "script")
                 [(lit "type", lit "text/x-mscgen");
                  (lit "data-named-style", lit "classic")]) ;;
  body_append (encode self code) ;;
  body_append (lit "</script>") ;;
  raise SkipNode.

Definition html_visit_mscgen (E : Env) (self : Translator) (node : mscgen) : M unit :=
  match config.mscgen_js (config (builder self)) with
  | Some _ => render_msc_html_js self node (code node)
  | None => render_msc_html E self node (code node)
  end.

(** The template of [render_msc_latex]. *)
Definition includegraphics_template : pystr :=
  [nl] ++ lit "\noindent\sphinxincludegraphics{{%s}.%s}" ++ [nl].

Definition render_msc_latex (E : Env) (self : Translator) (code : pystr) : M unit :=
  r <- render_msc E self code (outdir (builder self))
         (determine_format E (supported_image_types (builder self))) ;;
  match r with
  | (fn, ext) =>
      text <- lift (percent_format includegraphics_template [fn; ext]) ;;
      body_append text ;;
      raise SkipNode
  end.

Definition latex_visit_mscgen (E : Env) (self : Translator) (node : mscgen) : M unit :=
  render_msc_latex E self (code node).

(** ** Start-up *)

(** The part of the Sphinx application [builder_inited] works on: the
    configuration it reads, and the file names passed to
    [app.add_javascript] so far. *)
Record App : Type := {
  app_config : config.t;
  javascripts : list pystr
}.

(** [app.add_javascript(filename)]. *)
Definition add_javascript (filename : pystr) (app : App) : App :=
  {| app_config := app_config app;
     javascripts := javascripts app ++ [filename] |}.

Definition builder_inited (app : App) : App :=
  match config.mscgen_js (app_config app) with
  | Some js => add_javascript js app
  | None => app
  end.

(** ** The module over system calls that fail *)

(** The functions above take the calls on the file system and on the
    renderer process for granted: [ensuredir] makes its directory, [open]
    and [write] store every byte, the converter answers without touching
    the disk, and [Popen] raises nothing but the [OSError] of an executable
    that does not start.  [Faults] says which calls raise instead.  Module
    [IO] holds the functions of [mscgen.py] that make such calls once more,
    line by line as above, over calls that consult it; with [no_faults]
    they are the functions above. *)
Record Faults : Type := {
  (* ensuredir(path) raises, as OSError for a read-only parent *)
  ensuredir_raises : pystr -> option exn;
  (* Popen(args) raises before it tries to start anything, as ValueError
     for an argument that holds a null character *)
  popen_raises : list pystr -> option exn;
  (* p.communicate(input) raises *)
  communicate_raises : pybytes -> option exn;
  (* open(path, 'wb') raises; the file is as it was *)
  open_raises : pystr -> option exn;
  (* out.write(data), or the close that ends the with block, raises: the
     exception, and how many bytes had reached the file by then *)
  write_raises : pystr -> pybytes -> option (exn * nat);
  (* a conversion by cairosvg that raises may already have created the
     file it was to write: what it leaves there, if anything *)
  svg2pdf_leaves : pybytes -> option pybytes
}.

Definition no_faults : Faults :=
  {| ensuredir_raises := fun _ => None;
     popen_raises := fun _ => None;
     communicate_raises := fun _ => None;
     open_raises := fun _ => None;
     write_raises := fun _ _ => None;
     svg2pdf_leaves := fun _ => None |}.

(** The world with [data] as the content of the file [fpath]. *)
Definition put_file (fpath : pystr) (data : pybytes) (w : World) : World :=
  {| files := <[fpath := data]> (files w); dirs := dirs w; trace := trace w;
     uuid_calls := uuid_calls w; body := body w |}.

Module IO.

(** [sphinx.util.ensuredir(path)]. *)
Definition ensuredir (F : Faults) (path : pystr) : M unit :=
  fun w =>
    match ensuredir_raises F path with
    | Some e => (Raised e, w)
    | None =>
        (Returned tt,
         {| files := files w; dirs := {[path]} ∪ dirs w; trace := trace w;
            uuid_calls := uuid_calls w; body := body w |})
    end.

(** [Popen(args, stdout=PIPE, stdin=PIPE, stderr=PIPE)]. *)
Definition Popen (F : Faults) (E : Env) (args : list pystr) : M Process :=
  fun w =>
    match popen_raises F args with
    | Some e => (Raised e, log (EvPopen args) w)
    | None =>
        match popen E args with
        | inl errno => (Raised (OSError errno), log (EvPopen args) w)
        | inr p => (Returned p, log (EvPopen args) w)
        end
    end.

(** [p.communicate(input)] followed by reading [p.returncode]. *)
Definition communicate (F : Faults) (p : Process) (input : pybytes) :
    M (Z * pybytes * pybytes) :=
  fun w =>
    match communicate_raises F input with
    | Some e => (Raised e, log (EvCommunicate input) w)
    | None => (Returned (p input), log (EvCommunicate input) w)
    end.

(** [with open(fpath, 'wb') as out: out.write(data)].  A file that could be
    opened is cut to nothing and then filled; a write that raises leaves
    the bytes that got through. *)
Definition write_file (F : Faults) (fpath : pystr) (data : pybytes) : M unit :=
  fun w =>
    match open_raises F fpath with
    | Some e => (Raised e, w)
    | None =>
        match write_raises F fpath data with
        | Some (e, n) => (Raised e, put_file fpath (take n data) w)
        | None => (Returned tt, put_file fpath data w)
        end
    end.

(** [cairosvg.svg2pdf(svg, write_to=fpath)]: the library is handed the
    path and writes the file itself. *)
Definition svg2pdf (F : Faults) (convert : pybytes -> result pybytes)
    (svg : pybytes) (write_to : pystr) : M unit :=
  match convert svg with
  | Returned pdf => write_file F write_to pdf
  | Raised e =>
      fun w =>
        (Raised e,
         match svg2pdf_leaves F svg with
         | Some remains => put_file write_to remains w
         | None => w
         end)
  end.

Definition render_msc_native (F : Faults) (E : Env) (self : Translator)
    (code : pystr) (fmt : pystr) : M pybytes :=
  let mscgen_args :=
    [config.mscgen (config (builder self))] ++
    config.mscgen_args (config (builder self)) ++
    [lit "-T"; fmt; lit "-o"; lit "-"] in
  p <- try_except_OSError (Popen F E mscgen_args) (fun err => raise err) ;;
  input <- lift (encode_iso_8859_1 code) ;;
  out <- communicate F p input ;;
  match out with
  | (returncode, img, err) =>
      if bool_decide (returncode ≠ 0%Z) then
        msg <- lift (str_format cannot_render_template [py_str (PyStr code); py_str (PyBytes err)]) ;;
        raise (MscgenError msg)
      else ret img
  end.

Definition render_msc (F : Faults) (E : Env) (self : Translator)
    (code outpath : pystr) (fmt : option pystr) : M (pystr * pystr) :=
  ensuredir F outpath ;;
  uuid <- uuid4 E ;;
  bname <- lift (percent_format (lit "%s-%s") [lit "mscgen"; uuid]) ;;
  if bool_decide (fmt = Some image_png) then
    let ext := lit "png" in
    name <- lift (percent_format (lit "%s.%s") [bname; ext]) ;;
    let fpath := os_path_join outpath name in
    png <- render_msc_native F E self code (lit "png") ;;
    write_file F fpath png ;;
    ret (bname, ext)
  else
    svg <- render_msc_native F E self code (lit "svg") ;;
    if bool_decide (fmt = Some image_svg) then
      let ext := lit "svg" in
      name <- lift (percent_format (lit "%s.%s") [bname; ext]) ;;
      let fpath := os_path_join outpath name in
      write_file F fpath svg ;;
      ret (bname, ext)
    else if bool_decide (fmt = Some application_pdf) then
      let ext := lit "pdf" in
      name <- lift (percent_format (lit "%s.%s") [bname; ext]) ;;
      let fpath := os_path_join outpath name in
      match cairosvg E with
      | None => raise (NameError (lit "cairosvg"))
      | Some convert =>
          svg2pdf F convert svg fpath ;;
          ret (bname, ext)
      end
    else raise (NameError (lit "MscGenError")).

Definition render_msc_html (F : Faults) (E : Env) (self : Translator)
    (node : mscgen) (code : pystr) : M unit :=
  let imgpath :=
    match imgpath (builder self) with
    | Some (c :: p) => c :: p
    | _ => lit "."
    end in
  let outdir := os_path_join (outdir (builder self)) imgpath in
  r <- render_msc F E self code outdir
         (determine_format E (supported_image_types (builder self))) ;;
  match r with
  | (fn, ext) =>
      body_append (starttag self node (lit "p") [(lit "class", lit "mscgen")]) ;;
      text <- lift (percent_format img_template
                      [os_path_join imgpath fn; ext; strip (encode self code)]) ;;
      body_append text ;;
      body_append (lit "</p>" ++ [nl]) ;;
      raise SkipNode
  end.

Definition html_visit_mscgen (F : Faults) (E : Env) (self : Translator)
    (node : mscgen) : M unit :=
  match config.mscgen_js (config (builder self)) with
  | Some _ => render_msc_html_js self node (code node)
  | None => render_msc_html F E self node (code node)
  end.

Definition render_msc_latex (F : Faults) (E : Env) (self : Translator)
    (code : pystr) : M unit :=
  r <- render_msc F E self code (outdir (builder self))
         (determine_format E (supported_image_types (builder self))) ;;
  match r with
  | (fn, ext) =>
      text <- lift (percent_format includegraphics_template [fn; ext]) ;;
      body_append text ;;
      raise SkipNode
  end.

Definition latex_visit_mscgen (F : Faults) (E : Env) (self : Translator)
    (node : mscgen) : M unit :=
  render_msc_latex F E self (code node).

End IO.

(** ** Vocabulary of the statements *)

(** The argument vector [render_msc_native] hands to [Popen]. *)
Definition renderer_argv (self : Translator) (fmt : pystr) : list pystr :=
  config.mscgen (config (builder self)) ::
  config.mscgen_args (config (builder self)) ++
  [lit "-T"; fmt; lit "-o"; lit "-"].

(** The output type [render_msc] asks the renderer for. *)
Definition native_format (fmt : option pystr) : pystr :=
  if bool_decide (fmt = Some image_png) then lit "png" else lit "svg".

(** The base name [render_msc] generates in world [w]. *)
Definition basename (E : Env) (w : World) : pystr :=
  lit "mscgen-" ++ uuid4_str E (uuid_calls w).

(** The world once [render_msc] has made its directory and drawn its
    identifier, before it calls the renderer. *)
Definition prepared (outpath : pystr) (w : World) : World :=
  {| files := files w; dirs := {[outpath]} ∪ dirs w; trace := trace w;
     uuid_calls := S (uuid_calls w); body := body w |}.

(** The world after the texts have been appended to [self.body]. *)
Definition with_body (w : World) (texts : list pystr) : World :=
  {| files := files w; dirs := dirs w; trace := trace w;
     uuid_calls := uuid_calls w; body := body w ++ texts |}.

(** The image path prefix [render_msc_html] uses. *)
Definition html_imgpath (self : Translator) : pystr :=
  match imgpath (builder self) with
  | Some (c :: p) => c :: p
  | _ => lit "."
  end.

(** The argument vectors of the [Popen] calls of a trace. *)
Fixpoint popen_calls (t : list event) : list (list pystr) :=
  match t with
  | [] => []
  | EvPopen args :: t' => args :: popen_calls t'
  | EvCommunicate _ :: t' => popen_calls t'
  end.

(** The inputs fed to renderer processes in a trace. *)
Fixpoint communicate_inputs (t : list event) : list pybytes :=
  match t with
  | [] => []
  | EvPopen _ :: t' => communicate_inputs t'
  | EvCommunicate input :: t' => input :: communicate_inputs t'
  end.

(** A failed renderer invocation: the executable cannot be started, or the
    process it starts exits with a status other than zero. *)
Inductive invocation_fails (E : Env) (argv : list pystr) (code : pystr) : Prop :=
  | cannot_start (errno : Z) :
      popen E argv = inl errno -> invocation_fails E argv code
  | nonzero_exit (p : Process) (input : pybytes) :
      popen E argv = inr p ->
      encode_iso_8859_1 code = Returned input ->
      (p input).1.1 ≠ 0%Z ->
      invocation_fails E argv code.

(** An exception that is an error, as opposed to the [SkipNode] signal. *)
Definition is_error (e : exn) : bool :=
  match e with
  | SkipNode => false
  | _ => true
  end.

Definition is_MscgenError (e : exn) : bool :=
  match e with
  | MscgenError _ => true
  | _ => false
  end.

(** The outcome of a call followed by [return v]: the value when the call
    returns, its exception otherwise. *)
Definition and_return {A : Type} (c : result unit * World) (v : A) :
    result A * World :=
  match c with
  | (Returned _, w) => (Returned v, w)
  | (Raised e, w) => (Raised e, w)
  end.

(** ** Concrete surroundings for running the model *)

(** The [encode] of docutils' HTML translator. *)
Definition docutils_encode (s : pystr) : pystr :=
  concat (map (fun c =>
    if c =? 38 then lit "&amp;"
    else if c =? 60 then lit "&lt;"
    else if c =? dquote then lit "&quot;"
    else if c =? 62 then lit "&gt;"
    else if c =? 64 then lit "&#64;"
    else [c]) s).

(** A [starttag] in the manner of docutils': the tag, its attributes as
    given, a line feed. *)
Definition plain_starttag (node : mscgen) (tagname : pystr)
    (attrs : list (pystr * pystr)) : pystr :=
  lit "<" ++ tagname ++
  concat (map (fun kv => lit " " ++ kv.1 ++ lit "=" ++ [dquote] ++ kv.2 ++ [dquote]) attrs) ++
  lit ">" ++ [nl].

(** Identifiers that differ in their last digit. *)
Definition sample_uuid (n : nat) : pystr :=
  lit "6fa459ea-ee8a-4ca4-894e-db77e160355" ++ [hex_digit (N.of_nat n mod 16)].

Definition bytes_of_string (s : string) : pybytes := map byte_of (lit s).
Arguments bytes_of_string _%_string.

(** A renderer that accepts everything and prints [out]. *)
Definition env_ok (out : pybytes) : Env :=
  {| popen := fun _ => inr (fun _ => (0%Z, out, []));
     uuid4_str := sample_uuid;
     cairosvg := None |}.

(** A renderer that rejects its input. *)
Definition env_bad_syntax : Env :=
  {| popen := fun _ => inr (fun _ => (1%Z, [], bytes_of_string "bad syntax"));
     uuid4_str := sample_uuid;
     cairosvg := None |}.

(** No renderer installed: [Popen] fails with ENOENT. *)
Definition env_missing : Env :=
  {| popen := fun _ => inl 2%Z;
     uuid4_str := sample_uuid;
     cairosvg := None |}.

Definition sample_config (js : option pystr) : config.t :=
  {| config.mscgen := lit "mscgen"; config.mscgen_args := [];
     config.mscgen_js := js |}.

Definition html_translator (js : option pystr) : Translator :=
  {| builder := {| config := sample_config js; imgpath := Some (lit "_images");
                   outdir := lit "/build/html";
                   supported_image_types := [image_svg; image_png] |};
     starttag := plain_starttag; encode := docutils_encode |}.

Definition latex_translator (js : option pystr) : Translator :=
  {| builder := {| config := sample_config js; imgpath := None;
                   outdir := lit "/build/latex";
                   supported_image_types := [application_pdf; image_png] |};
     starttag := plain_starttag; encode := docutils_encode |}.

(** A builder that takes none of the preferred formats. *)
Definition text_translator : Translator :=
  {| builder := {| config := sample_config None; imgpath := None;
                   outdir := lit "/build/text";
                   supported_image_types := [lit "image/gif"] |};
     starttag := plain_starttag; encode := docutils_encode |}.

Definition world0 : World :=
  {| files := ∅; dirs := ∅; trace := []; uuid_calls := 0; body := [] |}.

Definition sample_code : pystr := lit "msc { a,b; a->b; }".

(** A renderer that prints [out], with cairosvg installed; the converter
    puts a PDF header before what it is given. *)
Definition env_pdf (out : pybytes) : Env :=
  {| popen := fun _ => inr (fun _ => (0%Z, out, []));
     uuid4_str := sample_uuid;
     cairosvg := Some (fun svg => Returned (bytes_of_string "%PDF-" ++ svg)) |}.

(** A broken identifier source that gives the same identifier every time. *)
Definition env_same_uuid (out : pybytes) : Env :=
  {| popen := fun _ => inr (fun _ => (0%Z, out, []));
     uuid4_str := fun _ => sample_uuid 0;
     cairosvg := None |}.

(** A builder without image path, as the text and LaTeX builders are. *)
Definition bare_html_translator : Translator :=
  {| builder := {| config := sample_config None; imgpath := None;
                   outdir := lit "/build/html";
                   supported_image_types := [image_svg; image_png] |};
     starttag := plain_starttag; encode := docutils_encode |}.

(** An output directory that cannot be made: [ensuredir] raises
    [OSError] with EACCES. *)
Definition faults_readonly : Faults :=
  {| ensuredir_raises := fun _ => Some (OSError 13);
     popen_raises := fun _ => None;
     communicate_raises := fun _ => None;
     open_raises := fun _ => None;
     write_raises := fun _ _ => None;
     svg2pdf_leaves := fun _ => None |}.

(** A converter that has created its file, empty, by the time it raises. *)
Definition faults_converter_leaves_empty_file : Faults :=
  {| ensuredir_raises := fun _ => None;
     popen_raises := fun _ => None;
     communicate_raises := fun _ => None;
     open_raises := fun _ => None;
     write_raises := fun _ _ => None;
     svg2pdf_leaves := fun _ => Some [] |}.

(** A renderer that prints [out], with a cairosvg that rejects it. *)
Definition env_pdf_rejects (out : pybytes) : Env :=
  {| popen := fun _ => inr (fun _ => (0%Z, out, []));
     uuid4_str := sample_uuid;
     cairosvg := Some (fun _ => Raised (ValueError (lit "not an svg document"))) |}.

(** A renderer that prints back what it reads, with an identifier source
    that gives the same identifier every time. *)
Definition env_echo : Env :=
  {| popen := fun _ => inr (fun input => (0%Z, input, []));
     uuid4_str := fun _ => sample_uuid 0;
     cairosvg := None |}.

(** * Properties *)

(** ** Strings and formats *)

Lemma list_contains_true (l : list pystr) (x : pystr) :
  list_contains l x = true <-> x ∈ l.
Proof.
  unfold list_contains, str_eqb. rewrite existsb_exists. split.
  - intros (y & Hin & Heq). apply bool_decide_eq_true in Heq. subst y.
    by apply list_elem_of_In.
  - intros Hin. exists x. split; [by apply list_elem_of_In |].
    by apply bool_decide_eq_true.
Qed.

Lemma list_contains_false (l : list pystr) (x : pystr) :
  list_contains l x = false <-> x ∉ l.
Proof.
  rewrite <- list_contains_true. destruct (list_contains l x); split; congruence.
Qed.

Lemma list_contains_perm (l l' : list pystr) (x : pystr) :
  l ≡ₚ l' -> list_contains l x = list_contains l' x.
Proof.
  intros Hp. destruct (list_contains l' x) eqn:H'.
  - apply list_contains_true. rewrite Hp. by apply list_contains_true.
  - apply list_contains_false. rewrite Hp. by apply list_contains_false.
Qed.

Lemma str_split_nonempty (sep : N) (s : pystr) : str_split sep s ≠ [].
Proof.
  destruct s as [| c s]; simpl; [done |].
  destruct (c =? sep); [done |]. by destruct (str_split sep s).
Qed.

(** Splitting a text into lines and joining them again gives the text. *)
Lemma str_join_split (sep : N) (s : pystr) :
  str_join [sep] (str_split sep s) = s.
Proof.
  induction s as [| c s IH]; simpl; [done |].
  destruct (c =? sep) eqn:Hc.
  - apply N.eqb_eq in Hc. subst c.
    pose proof (str_split_nonempty sep s) as Hne.
    destruct (str_split sep s) as [| p ps]; [done |].
    simpl in *. by rewrite IH.
  - pose proof (str_split_nonempty sep s) as Hne.
    destruct (str_split sep s) as [| p ps]; [done |].
    destruct ps as [| q qs]; simpl in *; by rewrite <- IH.
Qed.

Lemma percent_format_pair (template a b : pystr) (sep : N) :
  template = lit "%s" ++ [sep] ++ lit "%s" -> sep ≠ percent ->
  percent_format template [a; b] = Returned (a ++ [sep] ++ b).
Proof.
  intros -> Hsep. cbn.
  destruct (sep =? percent) eqn:H; [by apply N.eqb_eq in H |].
  by rewrite app_nil_r.
Qed.

Lemma percent_format_msc_template (x : pystr) :
  percent_format msc_template [x] =
    Returned (lit "msc {" ++ [nl] ++ x ++ [nl] ++ lit "}" ++ [nl]).
Proof. reflexivity. Qed.

Lemma percent_format_img_template (src ext alt : pystr) :
  percent_format img_template [src; ext; alt] =
    Returned (lit "<img src=" ++ [dquote] ++ src ++ lit "." ++ ext ++ [dquote] ++
              lit " alt=" ++ [dquote] ++ alt ++ [dquote] ++ lit "/>" ++ [nl]).
Proof. reflexivity. Qed.

Lemma percent_format_includegraphics (fn ext : pystr) :
  percent_format includegraphics_template [fn; ext] =
    Returned ([nl] ++ lit "\noindent\sphinxincludegraphics{{" ++ fn ++ lit "}." ++
              ext ++ lit "}" ++ [nl]).
Proof. reflexivity. Qed.

(** [str.format] leaves a template without braces as it is, whatever the
    arguments. *)
Lemma str_format_no_braces (template : pystr) (args : list pystr) :
  Forall (fun c => c ≠ lbrace /\ c ≠ rbrace) template ->
  str_format template args = Returned template.
Proof.
  induction 1 as [| c t [Hl Hr] _ IH]; simpl; [done |].
  apply N.eqb_neq in Hl, Hr. by rewrite Hl, Hr, IH.
Qed.

Lemma str_format_cannot_render (args : list pystr) :
  str_format cannot_render_template args = Returned cannot_render_template.
Proof.
  apply str_format_no_braces.
  apply (bool_decide_unpack _). by vm_compute.
Qed.

(** ** Format negotiation *)

Lemma determine_format_loop_prefix (pre post supported : list pystr) (f : pystr) :
  f ∈ supported -> (forall g, g ∈ pre -> g ∉ supported) ->
  determine_format_loop (pre ++ f :: post) supported = Some f.
Proof.
  intros Hf. induction pre as [| g pre IH]; intros Hpre; simpl.
  - by rewrite (proj2 (list_contains_true supported f) Hf).
  - rewrite (proj2 (list_contains_false supported g)) by (apply Hpre; left).
    apply IH. intros h Hh. apply Hpre. by right.
Qed.

Lemma determine_format_loop_Some (preferred supported : list pystr) (f : pystr) :
  determine_format_loop preferred supported = Some f ->
  exists pre post, preferred = pre ++ f :: post /\ f ∈ supported /\
                   forall g, g ∈ pre -> g ∉ supported.
Proof.
  induction preferred as [| g preferred IH]; simpl; [done |].
  destruct (list_contains supported g) eqn:Hg.
  - intros [= ->]. exists [], preferred. split; [done |].
    split; [by apply list_contains_true |]. intros h Hh. by apply elem_of_nil in Hh.
  - intros H. destruct (IH H) as (pre & post & -> & Hf & Hpre).
    exists (g :: pre), post. split; [done |]. split; [done |].
    intros h Hh. apply elem_of_cons in Hh as [-> | Hh]; [| by apply Hpre].
    by apply list_contains_false.
Qed.

Lemma determine_format_loop_None (preferred supported : list pystr) :
  determine_format_loop preferred supported = None <->
  forall f, f ∈ preferred -> f ∉ supported.
Proof.
  induction preferred as [| g preferred IH]; simpl.
  - split; [| done]. intros _ f Hf. by apply elem_of_nil in Hf.
  - destruct (list_contains supported g) eqn:Hg.
    + split; [done |]. intros H. apply list_contains_true in Hg.
      exfalso. apply (H g); [left | done].
    + rewrite IH. apply list_contains_false in Hg. split.
      * intros H f Hf. apply elem_of_cons in Hf as [-> | Hf]; [done | by apply H].
      * intros H f Hf. apply H. by right.
Qed.

Lemma determine_format_loop_perm (preferred supported supported' : list pystr) :
  supported ≡ₚ supported' ->
  determine_format_loop preferred supported =
  determine_format_loop preferred supported'.
Proof.
  intros Hp. induction preferred as [| g preferred IH]; simpl; [done |].
  by rewrite (list_contains_perm _ _ g Hp), IH.
Qed.

(** C2: [determine_format] returns the first entry of the preference order
    (svg, then pdf when cairosvg can be imported, then png) that is a member
    of the supported list; the result does not depend on the order of the
    supported list; it is [None] exactly when no preferred format is a
    member. *)
Theorem C2_determine_format_first_preferred (E : Env) (supported : list pystr) :
  preferred_formats E =
    match cairosvg E with
    | Some _ => [image_svg; application_pdf; image_png]
    | None => [image_svg; image_png]
    end /\
  determine_format E supported =
    (if list_contains supported image_svg then Some image_svg
     else if bool_decide (is_Some (cairosvg E)) &&
             list_contains supported application_pdf then Some application_pdf
     else if list_contains supported image_png then Some image_png
     else None) /\
  (forall f, determine_format E supported = Some f <->
     exists pre post, preferred_formats E = pre ++ f :: post /\ f ∈ supported /\
                      forall g, g ∈ pre -> g ∉ supported) /\
  (determine_format E supported = None <->
     forall f, f ∈ preferred_formats E -> f ∉ supported) /\
  (forall supported', supported ≡ₚ supported' ->
     determine_format E supported' = determine_format E supported).
Proof.
  split; [by unfold preferred_formats; destruct (cairosvg E) |].
  split.
  { unfold determine_format, preferred_formats.
    destruct (cairosvg E) as [conv |]; simpl; reflexivity. }
  split.
  { intros f. split; [apply determine_format_loop_Some |].
    intros (pre & post & Hpref & Hf & Hpre). unfold determine_format.
    rewrite Hpref. by apply determine_format_loop_prefix. }
  split; [apply determine_format_loop_None |].
  intros supported' Hp. symmetry. by apply determine_format_loop_perm.
Qed.

(** ** The directives *)

(** C6: the raw directive stores the body joined by line feeds, as it is;
    the wrapped directive stores the same text between the line [msc {] and
    the line [}]; each returns exactly one node.  A body read as lines from
    a text gives that text back. *)
Theorem C6_directives_store_body (content : list pystr) (text : pystr) :
  Mscgen_run content = [ {| code := str_join [nl] content |} ] /\
  MscgenSimple_run content =
    Returned [ {| code := lit "msc {" ++ [nl] ++ str_join [nl] content ++
                          [nl] ++ lit "}" ++ [nl] |} ] /\
  Mscgen_run (str_split nl text) = [ {| code := text |} ] /\
  MscgenSimple_run (str_split nl text) =
    Returned [ {| code := lit "msc {" ++ [nl] ++ text ++ [nl] ++ lit "}" ++ [nl] |} ] /\
  Mscgen_run [lit "X"; lit "Y"] = [ {| code := lit "X" ++ [nl] ++ lit "Y" |} ] /\
  MscgenSimple_run [lit "X"; lit "Y"] =
    Returned [ {| code := lit "msc {" ++ [nl] ++ lit "X" ++ [nl] ++ lit "Y" ++
                          [nl] ++ lit "}" ++ [nl] |} ].
Proof.
  assert (Hwrap : forall c, MscgenSimple_run c =
            Returned [ {| code := lit "msc {" ++ [nl] ++ str_join [nl] c ++
                                  [nl] ++ lit "}" ++ [nl] |} ]).
  { intros c. unfold MscgenSimple_run.
    by rewrite percent_format_msc_template. }
  split; [done |]. split; [apply Hwrap |].
  split; [by unfold Mscgen_run; rewrite str_join_split |].
  split; [by rewrite Hwrap, str_join_split |].
  split; [done |]. apply Hwrap.
Qed.

(** ** The text encoding *)

Lemma encode_iso_8859_1_from_Returned (pos : nat) (s : pystr) (input : pybytes) :
  encode_iso_8859_1_from pos s = Returned input -> map Byte.to_N input = s.
Proof.
  revert pos input. induction s as [| c s IH]; intros pos input; simpl.
  - by intros [= <-].
  - destruct (Byte.of_N c) as [b |] eqn:Hb; [| done].
    destruct (encode_iso_8859_1_from (S pos) s) as [r | e] eqn:Hr; [| done].
    intros [= <-]. simpl. by rewrite (Byte.to_of_N _ Hb), (IH _ _ Hr).
Qed.

Lemma encode_iso_8859_1_from_Raised (pos : nat) (s : pystr) (e : exn) :
  encode_iso_8859_1_from pos s = Raised e ->
  exists i c, e = UnicodeEncodeError (lit "latin-1") (pos + i)%nat /\
              s !! i = Some c /\ 255 < c.
Proof.
  revert pos. induction s as [| c s IH]; intros pos; simpl; [done |].
  destruct (Byte.of_N c) as [b |] eqn:Hb.
  - destruct (encode_iso_8859_1_from (S pos) s) as [r | e'] eqn:Hr; [done |].
    intros [= <-]. destruct (IH _ Hr) as (i & d & -> & Hi & Hd).
    exists (S i), d. split; [f_equal; lia | done].
  - intros [= <-]. exists 0%nat, c. rewrite Nat.add_0_r.
    split; [done |]. split; [done |]. by apply Byte.of_N_None_iff.
Qed.

Lemma encode_iso_8859_1_from_total (pos : nat) (s : pystr) :
  Forall (fun c => c <= 255) s ->
  exists input, encode_iso_8859_1_from pos s = Returned input.
Proof.
  intros H. revert pos. induction H as [| c s Hc _ IH]; intros pos; simpl; [eauto |].
  destruct (Byte.of_N c) as [b |] eqn:Hb.
  - destruct (IH (S pos)) as [r ->]. eauto.
  - apply Byte.of_N_None_iff in Hb. lia.
Qed.

Lemma encode_iso_8859_1_from_outside (pos : nat) (s : pystr) (c : N) :
  c ∈ s -> 255 < c ->
  exists e, encode_iso_8859_1_from pos s = Raised e.
Proof.
  intros Hin Hc. destruct (encode_iso_8859_1_from pos s) as [input | e] eqn:H; [| eauto].
  apply encode_iso_8859_1_from_Returned in H. subst s.
  apply list_elem_of_fmap in Hin as (b & -> & _).
  pose proof (Byte.to_N_bounded b). lia.
Qed.

(** ** Traces *)

Lemma popen_calls_app (t t' : list event) :
  popen_calls (t ++ t') = popen_calls t ++ popen_calls t'.
Proof.
  induction t as [| [args | input] t IH]; simpl; [done | by rewrite IH | done].
Qed.

Lemma communicate_inputs_app (t t' : list event) :
  communicate_inputs (t ++ t') = communicate_inputs t ++ communicate_inputs t'.
Proof.
  induction t as [| [args | input] t IH]; simpl; [done | done | by rewrite IH].
Qed.

(** ** One renderer invocation *)

(** [render_msc_native] case by case: what [Popen] answers, whether the
    text can be encoded, the exit status. *)
Lemma render_msc_native_run (E : Env) (self : Translator) (code fmt : pystr)
    (w : World) :
  render_msc_native E self code fmt w =
    match popen E (renderer_argv self fmt) with
    | inl errno =>
        (Raised (OSError errno), log (EvPopen (renderer_argv self fmt)) w)
    | inr p =>
        match encode_iso_8859_1 code with
        | Raised e => (Raised e, log (EvPopen (renderer_argv self fmt)) w)
        | Returned input =>
            (if bool_decide ((p input).1.1 ≠ 0%Z)
             then Raised (MscgenError cannot_render_template)
             else Returned (p input).1.2,
             log (EvCommunicate input) (log (EvPopen (renderer_argv self fmt)) w))
        end
    end.
Proof.
  unfold render_msc_native, bind, try_except_OSError, Popen, lift, communicate,
    raise, ret.
  change ([config.mscgen (config (builder self))] ++
          config.mscgen_args (config (builder self)) ++
          [lit "-T"; fmt; lit "-o"; lit "-"]) with (renderer_argv self fmt).
  destruct (popen E (renderer_argv self fmt)) as [errno | p]; [done |].
  destruct (encode_iso_8859_1 code) as [input | e]; [| done].
  destruct (p input) as [[returncode img] err]. cbn [fst snd].
  case_bool_decide; [| done].
  by rewrite str_format_cannot_render.
Qed.

(** The invocation touches nothing but the trace. *)
Lemma render_msc_native_frame (E : Env) (self : Translator) (code fmt : pystr)
    (w : World) :
  let w' := (render_msc_native E self code fmt w).2 in
  files w' = files w /\ dirs w' = dirs w /\ body w' = body w /\
  uuid_calls w' = uuid_calls w /\
  popen_calls (trace w') = popen_calls (trace w) ++ [renderer_argv self fmt].
Proof.
  rewrite render_msc_native_run.
  destruct (popen E (renderer_argv self fmt)) as [errno | p]; simpl.
  - by rewrite popen_calls_app.
  - destruct (encode_iso_8859_1 code) as [input | e]; simpl.
    + by rewrite !popen_calls_app, app_nil_r.
    + by rewrite popen_calls_app.
Qed.

(** The result of the invocation does not depend on the world. *)
Lemma render_msc_native_result (E : Env) (self : Translator) (code fmt : pystr)
    (w w' : World) :
  (render_msc_native E self code fmt w).1 = (render_msc_native E self code fmt w').1.
Proof.
  rewrite !render_msc_native_run.
  destruct (popen E (renderer_argv self fmt)) as [errno | p]; [done |].
  by destruct (encode_iso_8859_1 code).
Qed.

(** The invocation never raises the [SkipNode] signal. *)
Lemma render_msc_native_error (E : Env) (self : Translator) (code fmt : pystr)
    (w : World) (e : exn) :
  (render_msc_native E self code fmt w).1 = Raised e -> is_error e = true.
Proof.
  rewrite render_msc_native_run.
  destruct (popen E (renderer_argv self fmt)) as [errno | p]; simpl.
  - by intros [= <-].
  - destruct (encode_iso_8859_1 code) as [input | e'] eqn:He; simpl.
    + case_bool_decide; [by intros [= <-] | done].
    + intros [= <-].
      by destruct (encode_iso_8859_1_from_Raised _ _ _ He) as (i & c & -> & _).
Qed.

(** ** Rendering to a file *)

Lemma percent_format_dash (a b : pystr) :
  percent_format (lit "%s-%s") [a; b] = Returned (a ++ lit "-" ++ b).
Proof. by apply (percent_format_pair _ a b 45). Qed.

Lemma percent_format_dot (a b : pystr) :
  percent_format (lit "%s.%s") [a; b] = Returned (a ++ lit "." ++ b).
Proof. by apply (percent_format_pair _ a b 46). Qed.

(** [render_msc] in terms of its one renderer invocation. *)
Lemma render_msc_run (E : Env) (self : Translator) (code outpath : pystr)
    (fmt : option pystr) (w : World) :
  render_msc E self code outpath fmt w =
    match render_msc_native E self code (native_format fmt) (prepared outpath w) with
    | (Raised e, w') => (Raised e, w')
    | (Returned img, w') =>
        let bname := basename E w in
        let fpath := fun ext => os_path_join outpath (bname ++ lit "." ++ ext) in
        if bool_decide (fmt = Some image_png) then
          (Returned (bname, lit "png"), (write_file (fpath (lit "png")) img w').2)
        else if bool_decide (fmt = Some image_svg) then
          (Returned (bname, lit "svg"), (write_file (fpath (lit "svg")) img w').2)
        else if bool_decide (fmt = Some application_pdf) then
          match cairosvg E with
          | None => (Raised (NameError (lit "cairosvg")), w')
          | Some svg2pdf =>
              match svg2pdf img with
              | Returned pdf =>
                  (Returned (bname, lit "pdf"), (write_file (fpath (lit "pdf")) pdf w').2)
              | Raised e => (Raised e, w')
              end
          end
        else (Raised (NameError (lit "MscGenError")), w')
    end.
Proof.
  unfold render_msc, native_format, bind at 1 2 3, ensuredir, uuid4, lift at 1.
  rewrite percent_format_dash. cbn [uuid_calls files dirs trace body].
  change (lit "mscgen" ++ lit "-" ++ uuid4_str E (uuid_calls w)) with (basename E w).
  fold (prepared outpath w).
  repeat case_bool_decide; unfold bind, lift, ret, raise;
    rewrite ?percent_format_dot;
    destruct (render_msc_native E self code _ (prepared outpath w)) as [[img | e] w'];
    try done.
  destruct (cairosvg E) as [svg2pdf |]; [| done].
  by destruct (svg2pdf img).
Qed.

(** Whatever the format, [render_msc] calls [Popen] exactly once and leaves
    [self.body] alone. *)
Lemma render_msc_frame (E : Env) (self : Translator) (code outpath : pystr)
    (fmt : option pystr) (w : World) :
  let w' := (render_msc E self code outpath fmt w).2 in
  body w' = body w /\
  popen_calls (trace w') =
    popen_calls (trace w) ++ [renderer_argv self (native_format fmt)].
Proof.
  rewrite render_msc_run.
  pose proof (render_msc_native_frame E self code (native_format fmt)
                (prepared outpath w)) as (_ & _ & Hb & _ & Ht).
  destruct (render_msc_native E self code _ (prepared outpath w)) as [[img | e] w'];
    simpl in *; [| done].
  repeat case_bool_decide; try done.
  destruct (cairosvg E) as [svg2pdf |]; [| done].
  by destruct (svg2pdf img).
Qed.

(** An error of the renderer invocation is the error of [render_msc], and
    no file has been written by then. *)
Lemma render_msc_raised (E : Env) (self : Translator) (code outpath : pystr)
    (fmt : option pystr) (w : World) (e : exn) :
  (render_msc_native E self code (native_format fmt) (prepared outpath w)).1 = Raised e ->
  (render_msc E self code outpath fmt w).1 = Raised e /\
  files (render_msc E self code outpath fmt w).2 = files w.
Proof.
  rewrite render_msc_run.
  pose proof (render_msc_native_frame E self code (native_format fmt)
                (prepared outpath w)) as (Hf & _).
  destruct (render_msc_native E self code _ (prepared outpath w)) as [[img | e'] w'];
    simpl in *; [done |].
  by intros [= ->].
Qed.

(** With a format outside the three known ones [render_msc] cannot return:
    it raises the error of the invocation, or [NameError] for the misspelt
    [MscGenError] once the invocation has returned; no file is written. *)
Lemma render_msc_unknown_format (E : Env) (self : Translator)
    (code outpath : pystr) (fmt : option pystr) (w : World) :
  fmt ≠ Some image_png -> fmt ≠ Some image_svg -> fmt ≠ Some application_pdf ->
  render_msc E self code outpath fmt w =
    match render_msc_native E self code (lit "svg") (prepared outpath w) with
    | (Raised e, w') => (Raised e, w')
    | (Returned _, w') => (Raised (NameError (lit "MscGenError")), w')
    end.
Proof.
  intros Hpng Hsvg Hpdf. rewrite render_msc_run. unfold native_format.
  rewrite !bool_decide_eq_false_2 by done.
  by destruct (render_msc_native E self code _ (prepared outpath w)) as [[img | e] w'].
Qed.

(** ** Splicing into the output *)

Lemma render_msc_html_run (E : Env) (self : Translator) (node : mscgen)
    (code : pystr) (w : World) :
  render_msc_html E self node code w =
    match render_msc E self code
            (os_path_join (outdir (builder self)) (html_imgpath self))
            (determine_format E (supported_image_types (builder self))) w with
    | (Raised e, w') => (Raised e, w')
    | (Returned (fn, ext), w') =>
        (Raised SkipNode,
         with_body w'
           [starttag self node (lit "p") [(lit "class", lit "mscgen")];
            lit "<img src=" ++ [dquote] ++ os_path_join (html_imgpath self) fn ++
              lit "." ++ ext ++ [dquote] ++ lit " alt=" ++ [dquote] ++
              strip (encode self code) ++ [dquote] ++ lit "/>" ++ [nl];
            lit "</p>" ++ [nl]])
    end.
Proof.
  unfold render_msc_html. fold (html_imgpath self). unfold bind at 1.
  destruct (render_msc E self code _ _ w) as [[[fn ext] | e] w']; [| done].
  unfold bind, body_append, lift, raise.
  rewrite percent_format_img_template. cbn [files dirs trace uuid_calls body].
  unfold with_body. do 2 f_equal. by rewrite <- !app_assoc.
Qed.

Lemma render_msc_html_js_run (self : Translator) (node : mscgen) (code : pystr)
    (w : World) :
  render_msc_html_js self node code w =
    (Raised SkipNode,
     with_body w
       [starttag self node (lit "script")
          [(lit "type", lit "text/x-mscgen");
           (lit "data-named-style", lit "classic")];
        encode self code;
        lit "</script>"]).
Proof.
  unfold render_msc_html_js, bind, body_append, raise, with_body.
  cbn [files dirs trace uuid_calls body]. do 2 f_equal. by rewrite <- !app_assoc.
Qed.

Lemma render_msc_latex_run (E : Env) (self : Translator) (code : pystr)
    (w : World) :
  render_msc_latex E self code w =
    match render_msc E self code (outdir (builder self))
            (determine_format E (supported_image_types (builder self))) w with
    | (Raised e, w') => (Raised e, w')
    | (Returned (fn, ext), w') =>
        (Raised SkipNode,
         with_body w'
           [[nl] ++ lit "\noindent\sphinxincludegraphics{{" ++ fn ++ lit "}." ++
            ext ++ lit "}" ++ [nl]])
    end.
Proof.
  unfold render_msc_latex. unfold bind at 1.
  destruct (render_msc E self code _ _ w) as [[[fn ext] | e] w']; [| done].
  unfold bind, body_append, lift, raise.
  by rewrite percent_format_includegraphics.
Qed.

(** ** Failing and succeeding invocations *)

Lemma render_msc_native_cannot_start (E : Env) (self : Translator)
    (code fmt : pystr) (w : World) (errno : Z) :
  popen E (renderer_argv self fmt) = inl errno ->
  (render_msc_native E self code fmt w).1 = Raised (OSError errno).
Proof. intros H. by rewrite render_msc_native_run, H. Qed.

Lemma render_msc_native_exit (E : Env) (self : Translator) (code fmt : pystr)
    (w : World) (p : Process) (input : pybytes) :
  popen E (renderer_argv self fmt) = inr p ->
  encode_iso_8859_1 code = Returned input ->
  (render_msc_native E self code fmt w).1 =
    if bool_decide ((p input).1.1 ≠ 0%Z)
    then Raised (MscgenError cannot_render_template)
    else Returned (p input).1.2.
Proof. intros Hp Hc. by rewrite render_msc_native_run, Hp, Hc. Qed.

(** C1, as the code has it: a renderer invocation that fails raises, and no
    image file is written for the diagram.  A process that exits with a
    status other than zero gives [MscgenError]; an executable that cannot
    be started gives the [OSError] of [Popen], re-raised as it is. *)
Theorem C1_failed_invocation_raises (E : Env) (self : Translator)
    (code outpath : pystr) (fmt : option pystr) (w : World) :
  invocation_fails E (renderer_argv self (native_format fmt)) code ->
  exists e,
    (render_msc_native E self code (native_format fmt) w).1 = Raised e /\
    files (render_msc_native E self code (native_format fmt) w).2 = files w /\
    (render_msc E self code outpath fmt w).1 = Raised e /\
    files (render_msc E self code outpath fmt w).2 = files w /\
    match popen E (renderer_argv self (native_format fmt)) with
    | inl errno => e = OSError errno
    | inr _ => is_MscgenError e = true
    end.
Proof.
  intros Hfail.
  assert (exists e, (forall w0, (render_msc_native E self code (native_format fmt) w0).1
                                = Raised e) /\
            match popen E (renderer_argv self (native_format fmt)) with
            | inl errno => e = OSError errno
            | inr _ => is_MscgenError e = true
            end) as (e & Hnative & Hkind).
  { destruct Hfail as [errno Hp | p input Hp Hc Hrc].
    - exists (OSError errno). rewrite Hp. split; [| done].
      intros w0. by apply render_msc_native_cannot_start.
    - exists (MscgenError cannot_render_template). rewrite Hp. split; [| done].
      intros w0. rewrite (render_msc_native_exit _ _ _ _ _ _ _ Hp Hc).
      by rewrite bool_decide_eq_true_2. }
  exists e. split; [apply Hnative |].
  split; [apply render_msc_native_frame |].
  destruct (render_msc_raised E self code outpath fmt w e (Hnative _)) as [Hr Hf].
  done.
Qed.

(** C7: when the renderer process exits with status zero the invocation
    returns its standard output as it is, and for png and svg [render_msc]
    writes exactly those bytes to the file named after the base name. *)
Theorem C7_success_returns_stdout (E : Env) (self : Translator)
    (code outpath : pystr) (fmt : option pystr) (w : World)
    (p : Process) (input : pybytes) :
  popen E (renderer_argv self (native_format fmt)) = inr p ->
  encode_iso_8859_1 code = Returned input ->
  (p input).1.1 = 0%Z ->
  (render_msc_native E self code (native_format fmt) w).1 = Returned (p input).1.2 /\
  (fmt = Some image_png \/ fmt = Some image_svg ->
     (render_msc E self code outpath fmt w).1 =
       Returned (basename E w, native_format fmt) /\
     files (render_msc E self code outpath fmt w).2 =
       <[os_path_join outpath (basename E w ++ lit "." ++ native_format fmt) :=
           (p input).1.2]> (files w)).
Proof.
  intros Hp Hc Hrc.
  assert (Hnative : forall w0,
            (render_msc_native E self code (native_format fmt) w0).1 =
              Returned (p input).1.2).
  { intros w0. rewrite (render_msc_native_exit _ _ _ _ _ _ _ Hp Hc).
    rewrite bool_decide_eq_false_2; [done | by intros []]. }
  split; [apply Hnative |].
  intros Hfmt. rewrite render_msc_run.
  pose proof (Hnative (prepared outpath w)) as Hn.
  pose proof (render_msc_native_frame E self code (native_format fmt)
                (prepared outpath w)) as (Hf & _).
  destruct (render_msc_native E self code _ (prepared outpath w)) as [[img | e] w'];
    simpl in Hn, Hf; [| done].
  injection Hn as ->.
  destruct Hfmt as [-> | ->].
  - rewrite bool_decide_eq_true_2 by done. simpl. by rewrite Hf.
  - rewrite bool_decide_eq_false_2 by done.
    rewrite bool_decide_eq_true_2 by done. simpl. by rewrite Hf.
Qed.

(** ** What the renderer is fed *)

Lemma render_msc_native_inputs (E : Env) (self : Translator) (code fmt : pystr)
    (w : World) :
  communicate_inputs (trace (render_msc_native E self code fmt w).2) =
    communicate_inputs (trace w) ++
    match popen E (renderer_argv self fmt), encode_iso_8859_1 code with
    | inr _, Returned input => [input]
    | _, _ => []
    end.
Proof.
  rewrite render_msc_native_run.
  destruct (popen E (renderer_argv self fmt)) as [errno | p]; simpl.
  - by rewrite communicate_inputs_app.
  - destruct (encode_iso_8859_1 code) as [input | e]; simpl;
      rewrite !communicate_inputs_app; simpl; by rewrite ?app_nil_r.
Qed.



(** ** When system calls fail *)

(** [IO.render_msc_native] case by case: what [Popen] does, whether the
    text can be encoded, what [communicate] does, the exit status. *)
Lemma io_render_msc_native_run (F : Faults) (E : Env) (self : Translator)
    (code fmt : pystr) (w : World) :
  IO.render_msc_native F E self code fmt w =
    let argv := renderer_argv self fmt in
    match popen_raises F argv with
    | Some e => (Raised e, log (EvPopen argv) w)
    | None =>
        match popen E argv with
        | inl errno => (Raised (OSError errno), log (EvPopen argv) w)
        | inr p =>
            match encode_iso_8859_1 code with
            | Raised e => (Raised e, log (EvPopen argv) w)
            | Returned input =>
                (match communicate_raises F input with
                 | Some e => Raised e
                 | None =>
                     if bool_decide ((p input).1.1 ≠ 0%Z)
                     then Raised (MscgenError cannot_render_template)
                     else Returned (p input).1.2
                 end,
                 log (EvCommunicate input) (log (EvPopen argv) w))
            end
        end
    end.
Proof.
  unfold IO.render_msc_native, bind, try_except_OSError, IO.Popen, lift,
    IO.communicate, raise, ret.
  change ([config.mscgen (config (builder self))] ++
          config.mscgen_args (config (builder self)) ++
          [lit "-T"; fmt; lit "-o"; lit "-"]) with (renderer_argv self fmt).
  cbv zeta.
  destruct (popen_raises F (renderer_argv self fmt)) as [e |]; [by destruct e |].
  destruct (popen E (renderer_argv self fmt)) as [errno | p]; [done |].
  destruct (encode_iso_8859_1 code) as [input | e]; [| done].
  destruct (communicate_raises F input) as [e |]; [done |].
  destruct (p input) as [[returncode img] err]. cbn [fst snd].
  case_bool_decide; [| done].
  by rewrite str_format_cannot_render.
Qed.

Lemma io_render_msc_native_frame (F : Faults) (E : Env) (self : Translator)
    (code fmt : pystr) (w : World) :
  let w' := (IO.render_msc_native F E self code fmt w).2 in
  files w' = files w /\ dirs w' = dirs w /\ body w' = body w /\
  uuid_calls w' = uuid_calls w /\
  popen_calls (trace w') = popen_calls (trace w) ++ [renderer_argv self fmt].
Proof.
  rewrite io_render_msc_native_run. cbv zeta.
  destruct (popen_raises F (renderer_argv self fmt)) as [e |]; simpl.
  { by rewrite popen_calls_app. }
  destruct (popen E (renderer_argv self fmt)) as [errno | p]; simpl.
  - by rewrite popen_calls_app.
  - destruct (encode_iso_8859_1 code) as [input | e]; simpl.
    + by rewrite !popen_calls_app, app_nil_r.
    + by rewrite popen_calls_app.
Qed.

Lemma io_write_file_frame (F : Faults) (fpath : pystr) (data : pybytes)
    (w : World) :
  let r := IO.write_file F fpath data w in
  dirs r.2 = dirs w /\ trace r.2 = trace w /\ uuid_calls r.2 = uuid_calls w /\
  body r.2 = body w /\
  (forall q, q ≠ fpath -> files r.2 !! q = files w !! q) /\
  (forall u, r.1 = Returned u -> files r.2 = <[fpath := data]> (files w)).
Proof.
  unfold IO.write_file.
  destruct (open_raises F fpath) as [e |]; [done |].
  destruct (write_raises F fpath data) as [[e n] |]; simpl.
  - split_and!; try done. intros q Hq. by rewrite lookup_insert_ne.
  - split_and!; try done. intros q Hq. by rewrite lookup_insert_ne.
Qed.

Lemma io_svg2pdf_frame (F : Faults) (convert : pybytes -> result pybytes)
    (svg : pybytes) (fpath : pystr) (w : World) :
  let r := IO.svg2pdf F convert svg fpath w in
  dirs r.2 = dirs w /\ trace r.2 = trace w /\ uuid_calls r.2 = uuid_calls w /\
  body r.2 = body w /\
  (forall q, q ≠ fpath -> files r.2 !! q = files w !! q) /\
  (forall u, r.1 = Returned u ->
     exists pdf, convert svg = Returned pdf /\
                 files r.2 = <[fpath := pdf]> (files w)).
Proof.
  unfold IO.svg2pdf. destruct (convert svg) as [pdf | e].
  - destruct (io_write_file_frame F fpath pdf w) as (Hd & Ht & Hu & Hb & Hq & Hr).
    split_and!; try done. intros u Hu'. exists pdf. split; [done |]. by eapply Hr.
  - simpl. destruct (svg2pdf_leaves F svg) as [remains |]; simpl.
    + split_and!; try done. intros q Hq. by rewrite lookup_insert_ne.
    + done.
Qed.

Lemma io_render_msc_run (F : Faults) (E : Env) (self : Translator)
    (code outpath : pystr) (fmt : option pystr) (w : World) :
  IO.render_msc F E self code outpath fmt w =
    match ensuredir_raises F outpath with
    | Some e => (Raised e, w)
    | None =>
        match IO.render_msc_native F E self code (native_format fmt)
                (prepared outpath w) with
        | (Raised e, w') => (Raised e, w')
        | (Returned img, w') =>
            let bname := basename E w in
            let fpath := fun ext => os_path_join outpath (bname ++ lit "." ++ ext) in
            if bool_decide (fmt = Some image_png) then
              and_return (IO.write_file F (fpath (lit "png")) img w')
                (bname, lit "png")
            else if bool_decide (fmt = Some image_svg) then
              and_return (IO.write_file F (fpath (lit "svg")) img w')
                (bname, lit "svg")
            else if bool_decide (fmt = Some application_pdf) then
              match cairosvg E with
              | None => (Raised (NameError (lit "cairosvg")), w')
              | Some convert =>
                  and_return (IO.svg2pdf F convert img (fpath (lit "pdf")) w')
                    (bname, lit "pdf")
              end
            else (Raised (NameError (lit "MscGenError")), w')
        end
    end.
Proof.
  unfold IO.render_msc, native_format, bind at 1, IO.ensuredir.
  destruct (ensuredir_raises F outpath) as [e |]; [done |].
  unfold bind at 1 2, uuid4, lift at 1.
  rewrite percent_format_dash. cbn [uuid_calls files dirs trace body].
  change (lit "mscgen" ++ lit "-" ++ uuid4_str E (uuid_calls w)) with (basename E w).
  fold (prepared outpath w).
  repeat case_bool_decide; unfold bind, lift, ret, raise, and_return;
    rewrite ?percent_format_dot;
    destruct (IO.render_msc_native F E self code _ (prepared outpath w))
      as [[img | e] w'];
    try done.
  all: try by destruct (IO.write_file F _ img w') as [[[] | e] w''].
  destruct (cairosvg E) as [convert |]; [| done].
  by destruct (IO.svg2pdf F convert img _ w') as [[[] | e] w''].
Qed.

(** Without faults the functions of [IO] are the functions of the module
    as embedded first. *)
Lemma io_render_msc_native_no_faults (E : Env) (self : Translator)
    (code fmt : pystr) (w : World) :
  IO.render_msc_native no_faults E self code fmt w =
  render_msc_native E self code fmt w.
Proof.
  rewrite io_render_msc_native_run, render_msc_native_run. simpl.
  destruct (popen E (renderer_argv self fmt)) as [errno | p]; [done |].
  by destruct (encode_iso_8859_1 code).
Qed.

Lemma io_render_msc_no_faults (E : Env) (self : Translator)
    (code outpath : pystr) (fmt : option pystr) (w : World) :
  IO.render_msc no_faults E self code outpath fmt w =
  render_msc E self code outpath fmt w.
Proof.
  rewrite io_render_msc_run, render_msc_run. simpl.
  rewrite io_render_msc_native_no_faults.
  destruct (render_msc_native E self code _ (prepared outpath w)) as [[img | e] w'];
    [| done].
  repeat case_bool_decide; try done.
  destruct (cairosvg E) as [convert |]; [| done].
  unfold IO.svg2pdf. by destruct (convert img).
Qed.

Lemma io_visitors_no_faults (E : Env) (self : Translator) (node : mscgen)
    (w : World) :
  IO.html_visit_mscgen no_faults E self node w = html_visit_mscgen E self node w /\
  IO.latex_visit_mscgen no_faults E self node w = latex_visit_mscgen E self node w.
Proof.
  unfold IO.html_visit_mscgen, html_visit_mscgen, IO.latex_visit_mscgen,
    latex_visit_mscgen, IO.render_msc_html, render_msc_html,
    IO.render_msc_latex, render_msc_latex.
  split.
  - destruct (config.mscgen_js (config (builder self))); [done |].
    unfold bind at 1 5. by rewrite io_render_msc_no_faults.
  - unfold bind at 1 3. by rewrite io_render_msc_no_faults.
Qed.

Lemma io_render_msc_html_run (F : Faults) (E : Env) (self : Translator)
    (node : mscgen) (code : pystr) (w : World) :
  IO.render_msc_html F E self node code w =
    match IO.render_msc F E self code
            (os_path_join (outdir (builder self)) (html_imgpath self))
            (determine_format E (supported_image_types (builder self))) w with
    | (Raised e, w') => (Raised e, w')
    | (Returned (fn, ext), w') =>
        (Raised SkipNode,
         with_body w'
           [starttag self node (lit "p") [(lit "class", lit "mscgen")];
            lit "<img src=" ++ [dquote] ++ os_path_join (html_imgpath self) fn ++
              lit "." ++ ext ++ [dquote] ++ lit " alt=" ++ [dquote] ++
              strip (encode self code) ++ [dquote] ++ lit "/>" ++ [nl];
            lit "</p>" ++ [nl]])
    end.
Proof.
  unfold IO.render_msc_html. fold (html_imgpath self). unfold bind at 1.
  destruct (IO.render_msc F E self code _ _ w) as [[[fn ext] | e] w']; [| done].
  unfold bind, body_append, lift, raise.
  rewrite percent_format_img_template. cbn [files dirs trace uuid_calls body].
  unfold with_body. do 2 f_equal. by rewrite <- !app_assoc.
Qed.

Lemma io_render_msc_latex_run (F : Faults) (E : Env) (self : Translator)
    (code : pystr) (w : World) :
  IO.render_msc_latex F E self code w =
    match IO.render_msc F E self code (outdir (builder self))
            (determine_format E (supported_image_types (builder self))) w with
    | (Raised e, w') => (Raised e, w')
    | (Returned (fn, ext), w') =>
        (Raised SkipNode,
         with_body w'
           [[nl] ++ lit "\noindent\sphinxincludegraphics{{" ++ fn ++ lit "}." ++
            ext ++ lit "}" ++ [nl]])
    end.
Proof.
  unfold IO.render_msc_latex. unfold bind at 1.
  destruct (IO.render_msc F E self code _ _ w) as [[[fn ext] | e] w']; [| done].
  unfold bind, body_append, lift, raise.
  by rewrite percent_format_includegraphics.
Qed.

(** What [IO.render_msc] leaves of the world, whatever fails. *)
Lemma io_render_msc_world (F : Faults) (E : Env) (self : Translator)
    (code outpath : pystr) (fmt : option pystr) (w : World) :
  let r := IO.render_msc F E self code outpath fmt w in
  body r.2 = body w /\
  (forall q,
     (forall ext, q ≠ os_path_join outpath (basename E w ++ lit "." ++ ext)) ->
     files r.2 !! q = files w !! q) /\
  (forall fn ext, r.1 = Returned (fn, ext) ->
     fn = basename E w /\
     (fmt = Some image_png /\ ext = lit "png" \/
      fmt = Some image_svg /\ ext = lit "svg" \/
      fmt = Some application_pdf /\ ext = lit "pdf") /\
     exists data,
       files r.2 = <[os_path_join outpath (fn ++ lit "." ++ ext) := data]> (files w)).
Proof.
  rewrite io_render_msc_run.
  destruct (ensuredir_raises F outpath) as [e |]; [done |].
  pose proof (io_render_msc_native_frame F E self code (native_format fmt)
                (prepared outpath w)) as (Hf & _ & Hb & _).
  destruct (IO.render_msc_native F E self code _ (prepared outpath w))
    as [[img | e] w']; cbn [fst snd files body prepared] in *.
  2: { split_and!; [done | by rewrite Hf | done]. }
  cbv zeta. repeat case_bool_decide.
  - destruct (io_write_file_frame F
                (os_path_join outpath (basename E w ++ lit "." ++ lit "png")) img w')
      as (_ & _ & _ & Hb' & Hq & Hr).
    destruct (IO.write_file F _ img w') as [[[] | e] w'']; cbn [fst snd and_return] in *.
    + split_and!; [congruence | | ].
      * intros q Hne. rewrite Hq by apply Hne. by rewrite Hf.
      * intros fn ext [= <- <-]. split; [done |]. split; [by left |].
        exists img. rewrite (Hr tt) by done. by rewrite Hf.
    + split_and!; [congruence | | done].
      intros q Hne. rewrite Hq by apply Hne. by rewrite Hf.
  - destruct (io_write_file_frame F
                (os_path_join outpath (basename E w ++ lit "." ++ lit "svg")) img w')
      as (_ & _ & _ & Hb' & Hq & Hr).
    destruct (IO.write_file F _ img w') as [[[] | e] w'']; cbn [fst snd and_return] in *.
    + split_and!; [congruence | | ].
      * intros q Hne. rewrite Hq by apply Hne. by rewrite Hf.
      * intros fn ext [= <- <-]. split; [done |]. split; [by right; left |].
        exists img. rewrite (Hr tt) by done. by rewrite Hf.
    + split_and!; [congruence | | done].
      intros q Hne. rewrite Hq by apply Hne. by rewrite Hf.
  - destruct (cairosvg E) as [convert |]; cbn [fst snd].
    2: { split_and!; [done | by rewrite Hf | done]. }
    destruct (io_svg2pdf_frame F convert img
                (os_path_join outpath (basename E w ++ lit "." ++ lit "pdf")) w')
      as (_ & _ & _ & Hb' & Hq & Hr).
    destruct (IO.svg2pdf F convert img _ w') as [[[] | e] w''];
      cbn [fst snd and_return] in *.
    + split_and!; [congruence | | ].
      * intros q Hne. rewrite Hq by apply Hne. by rewrite Hf.
      * intros fn ext [= <- <-]. split; [done |]. split; [by right; right |].
        destruct (Hr tt eq_refl) as (pdf & _ & ->). exists pdf. by rewrite Hf.
    + split_and!; [congruence | | done].
      intros q Hne. rewrite Hq by apply Hne. by rewrite Hf.
  - cbn [fst snd]. split_and!; [done | by rewrite Hf | done].
Qed.

(** ** Formats outside the known ones *)

(** C9, as the code has it: with a format argument that is none of png, svg
    and pdf (the [None] of a failed negotiation included) [render_msc]
    never returns and writes no file.  When [ensuredir] raises, that is the
    end of it: no renderer is called.  Otherwise [Popen] is called once,
    asking for svg.  When that invocation returns, the last line is reached
    and raises [NameError] for the undefined name [MscGenError], which is
    not the module's [MscgenError].  When the invocation fails, its own
    error is raised and the last line is not reached: for a process that
    exits with a status other than zero that error is [MscgenError]. *)
Theorem C9_unknown_format_never_returns (F : Faults) (E : Env)
    (self : Translator) (code outpath : pystr) (fmt : option pystr) (w : World) :
  fmt ≠ Some image_png -> fmt ≠ Some image_svg -> fmt ≠ Some application_pdf ->
  let r := IO.render_msc F E self code outpath fmt w in
  let argv := renderer_argv self (lit "svg") in
  let native := IO.render_msc_native F E self code (lit "svg") (prepared outpath w) in
  (exists e, r.1 = Raised e) /\
  files r.2 = files w /\
  match ensuredir_raises F outpath with
  | Some e => r = (Raised e, w)
  | None =>
      popen_calls (trace r.2) = popen_calls (trace w) ++ [argv] /\
      (forall img, native.1 = Returned img ->
         r.1 = Raised (NameError (lit "MscGenError"))) /\
      (forall e, native.1 = Raised e -> r.1 = Raised e) /\
      (forall p input,
         popen_raises F argv = None -> popen E argv = inr p ->
         encode_iso_8859_1 code = Returned input ->
         communicate_raises F input = None ->
         r.1 = Raised (if bool_decide ((p input).1.1 ≠ 0%Z)
                       then MscgenError cannot_render_template
                       else NameError (lit "MscGenError")))
  end /\
  is_MscgenError (NameError (lit "MscGenError")) = false.
Proof.
  intros Hpng Hsvg Hpdf r argv native. subst r argv native.
  rewrite io_render_msc_run. unfold native_format.
  rewrite !bool_decide_eq_false_2 by done.
  destruct (ensuredir_raises F outpath) as [e |]; [by eauto |].
  pose proof (io_render_msc_native_frame F E self code (lit "svg")
                (prepared outpath w)) as (Hf & _ & _ & _ & Ht).
  pose proof (io_render_msc_native_run F E self code (lit "svg")
                (prepared outpath w)) as Hrun.
  destruct (IO.render_msc_native F E self code _ (prepared outpath w))
    as [[img | e] w']; cbn [fst snd files trace prepared] in *.
  - split_and!; try done; [by eauto |].
    intros p input Hr Hp Hc Hcomm. cbv zeta in Hrun.
    rewrite Hr, Hp, Hc, Hcomm in Hrun. by case_bool_decide.
  - split_and!; try done; [by eauto | by intros e0 [= ->] |].
    intros p input Hr Hp Hc Hcomm. cbv zeta in Hrun.
    rewrite Hr, Hp, Hc, Hcomm in Hrun. case_bool_decide; [| done].
    by injection Hrun as -> _.
Qed.

(** ** Text that ISO-8859-1 cannot hold *)

(** Rendering returns bytes only for a text that ISO-8859-1 can hold. *)
Lemma render_msc_native_returns_encodable (E : Env) (self : Translator)
    (code fmt : pystr) (w : World) (img : pybytes) :
  (render_msc_native E self code fmt w).1 = Returned img ->
  Forall (fun c => c <= 255) code.
Proof.
  rewrite render_msc_native_run.
  destruct (popen E (renderer_argv self fmt)) as [errno | p]; [done |].
  destruct (encode_iso_8859_1 code) as [input | e] eqn:Hc; [| done].
  intros _. apply encode_iso_8859_1_from_Returned in Hc. subst code.
  apply Forall_fmap, Forall_forall. intros b _. apply Byte.to_N_bounded.
Qed.

(** C10, as the code has it: a source text with a character above U+00FF
    never yields rendered bytes and never raises [MscgenError].  The
    executable is started first: when it cannot be, the [OSError] of
    [Popen] is what is raised; once it has been started, encoding the text
    raises [UnicodeEncodeError] and the process is never fed. *)
Theorem C10_unencodable_source (E : Env) (self : Translator) (code fmt : pystr)
    (w : World) (c : N) :
  c ∈ code -> 255 < c ->
  let r := render_msc_native E self code fmt w in
  (forall img, r.1 ≠ Returned img) /\
  (forall msg, r.1 ≠ Raised (MscgenError msg)) /\
  communicate_inputs (trace r.2) = communicate_inputs (trace w) /\
  match popen E (renderer_argv self fmt) with
  | inl errno => r.1 = Raised (OSError errno)
  | inr _ =>
      exists i d, r.1 = Raised (UnicodeEncodeError (lit "latin-1") i) /\
                  code !! i = Some d /\ 255 < d
  end.
Proof.
  intros Hin Hc r. subst r.
  destruct (encode_iso_8859_1_from_outside 0 code c Hin Hc) as [e He].
  destruct (encode_iso_8859_1_from_Raised _ _ _ He) as (i & d & -> & Hi & Hd).
  rewrite render_msc_native_inputs, render_msc_native_run.
  unfold encode_iso_8859_1. rewrite He.
  destruct (popen E (renderer_argv self fmt)) as [errno | p]; cbn [fst snd].
  - by rewrite app_nil_r.
  - rewrite app_nil_r. split_and!; try done. by exists i, d.
Qed.


(** ** The emitted markup *)

(** When [render_msc] returns, the name it returns is the generated base
    name, and the one file it wrote lies in [outpath] under that name and
    the extension. *)
Lemma render_msc_returned (E : Env) (self : Translator) (code outpath : pystr)
    (fmt : option pystr) (w w' : World) (fn ext : pystr) :
  render_msc E self code outpath fmt w = (Returned (fn, ext), w') ->
  fn = basename E w /\ body w' = body w /\
  exists data,
    files w' = <[os_path_join outpath (fn ++ lit "." ++ ext) := data]> (files w).
Proof.
  rewrite render_msc_run.
  pose proof (render_msc_native_frame E self code (native_format fmt)
                (prepared outpath w)) as (Hf & _ & Hb & _).
  destruct (render_msc_native E self code _ (prepared outpath w)) as [[img | e] w1];
    cbn [fst snd files body prepared] in *; [| done].
  repeat case_bool_decide.
  - intros [= <- <- <-]. simpl. rewrite Hf. eauto.
  - intros [= <- <- <-]. simpl. rewrite Hf. eauto.
  - destruct (cairosvg E) as [svg2pdf |]; [| done].
    destruct (svg2pdf img) as [pdf | e]; [| done].
    intros [= <- <- <-]. simpl. rewrite Hf. eauto.
  - done.
Qed.

(** C3, as the code has it: with [mscgen_js] set, the HTML visitor starts
    no renderer process and writes no file; it emits the script start tag,
    the escaped source text and the closing tag, and raises [SkipNode].
    The LaTeX visitor does not read [mscgen_js]: it calls the renderer once
    as always. *)
Theorem C3_script_mode_html_only (E : Env) (self : Translator) (node : mscgen)
    (w : World) (js : pystr) :
  config.mscgen_js (config (builder self)) = Some js ->
  html_visit_mscgen E self node w =
    (Raised SkipNode,
     with_body w
       [starttag self node (lit "script")
          [(lit "type", lit "text/x-mscgen");
           (lit "data-named-style", lit "classic")];
        encode self (code node);
        lit "</script>"]) /\
  trace (html_visit_mscgen E self node w).2 = trace w /\
  files (html_visit_mscgen E self node w).2 = files w /\
  popen_calls (trace (latex_visit_mscgen E self node w).2) =
    popen_calls (trace w) ++
    [renderer_argv self
       (native_format (determine_format E (supported_image_types (builder self))))].
Proof.
  intros Hjs.
  assert (Hhtml : html_visit_mscgen E self node w =
                    render_msc_html_js self node (code node) w).
  { unfold html_visit_mscgen. by rewrite Hjs. }
  rewrite Hhtml, render_msc_html_js_run. split_and!; try done.
  unfold latex_visit_mscgen. rewrite render_msc_latex_run.
  pose proof (render_msc_frame E self (code node) (outdir (builder self))
                (determine_format E (supported_image_types (builder self))) w)
    as (_ & Ht).
  by destruct (render_msc E self (code node) _ _ w) as [[[fn ext] | e] w'].
Qed.

(** C4, as the code has it: the HTML image tag refers to the generated base
    name joined under the image path prefix, with the extension after a
    dot; the LaTeX command has, inside its braces, the base name alone in
    braces of its own followed by a dot and the extension.  The base name
    carries no directory: the file itself is written into the output
    directory. *)
Theorem C4_image_references (E : Env) (self : Translator) (node : mscgen)
    (code : pystr) (w : World) :
  (forall fn ext w',
     render_msc E self code
       (os_path_join (outdir (builder self)) (html_imgpath self))
       (determine_format E (supported_image_types (builder self))) w
       = (Returned (fn, ext), w') ->
     fn = basename E w /\
     (exists data,
        files w' =
          <[os_path_join (os_path_join (outdir (builder self)) (html_imgpath self))
              (fn ++ lit "." ++ ext) := data]> (files w)) /\
     render_msc_html E self node code w =
       (Raised SkipNode,
        with_body w'
          [starttag self node (lit "p") [(lit "class", lit "mscgen")];
           lit "<img src=" ++ [dquote] ++ os_path_join (html_imgpath self) fn ++
             lit "." ++ ext ++ [dquote] ++ lit " alt=" ++ [dquote] ++
             strip (encode self code) ++ [dquote] ++ lit "/>" ++ [nl];
           lit "</p>" ++ [nl]])) /\
  (forall fn ext w',
     render_msc E self code (outdir (builder self))
       (determine_format E (supported_image_types (builder self))) w
       = (Returned (fn, ext), w') ->
     fn = basename E w /\
     (exists data,
        files w' =
          <[os_path_join (outdir (builder self)) (fn ++ lit "." ++ ext) := data]>
            (files w)) /\
     render_msc_latex E self code w =
       (Raised SkipNode,
        with_body w'
          [[nl] ++ lit "\noindent\sphinxincludegraphics{{" ++ fn ++ lit "}." ++
           ext ++ lit "}" ++ [nl]])).
Proof.
  split; intros fn ext w' Hr;
    destruct (render_msc_returned _ _ _ _ _ _ _ _ _ Hr) as (Hfn & _ & Hfile);
    (split; [done |]); (split; [done |]).
  - by rewrite render_msc_html_run, Hr.
  - by rewrite render_msc_latex_run, Hr.
Qed.

(** C5: when no preferred format is among the supported ones, the
    negotiation gives [None], and rendering with that result raises an
    error: it does not return, it writes no file and it emits nothing. *)
Theorem C5_no_common_format_is_fatal (E : Env) (self : Translator)
    (node : mscgen) (code outpath : pystr) (w : World) :
  (forall f, f ∈ preferred_formats E -> f ∉ supported_image_types (builder self)) ->
  let fmt := determine_format E (supported_image_types (builder self)) in
  fmt = None /\
  (exists e, (render_msc E self code outpath fmt w).1 = Raised e /\
             is_error e = true) /\
  files (render_msc E self code outpath fmt w).2 = files w /\
  body (render_msc E self code outpath fmt w).2 = body w /\
  (exists e, (render_msc_html E self node code w).1 = Raised e /\
             is_error e = true) /\
  files (render_msc_html E self node code w).2 = files w /\
  body (render_msc_html E self node code w).2 = body w /\
  (exists e, (render_msc_latex E self code w).1 = Raised e /\
             is_error e = true) /\
  files (render_msc_latex E self code w).2 = files w /\
  body (render_msc_latex E self code w).2 = body w.
Proof.
  intros Hnone fmt.
  assert (Hfmt : fmt = None) by by apply determine_format_loop_None.
  assert (Hfatal : forall out,
            exists e w',
              render_msc E self code out fmt w = (Raised e, w') /\
              is_error e = true /\ files w' = files w /\ body w' = body w).
  { intros out. rewrite Hfmt, render_msc_unknown_format by done.
    pose proof (render_msc_native_frame E self code (lit "svg") (prepared out w))
      as (Hf & _ & Hb & _).
    pose proof (render_msc_native_error E self code (lit "svg") (prepared out w))
      as Herr.
    destruct (render_msc_native E self code _ (prepared out w)) as [[img | e] w'];
      cbn [fst snd files body prepared] in *.
    - by exists (NameError (lit "MscGenError")), w'.
    - exists e, w'. split_and!; try done. by apply Herr. }
  split; [done |].
  destruct (Hfatal outpath) as (e1 & w1 & H1 & He1 & Hf1 & Hb1).
  rewrite render_msc_html_run, render_msc_latex_run.
  fold fmt.
  destruct (Hfatal (os_path_join (outdir (builder self)) (html_imgpath self)))
    as (e2 & w2 & H2 & He2 & Hf2 & Hb2).
  destruct (Hfatal (outdir (builder self))) as (e3 & w3 & H3 & He3 & Hf3 & Hb3).
  rewrite H1, H2, H3. cbn [fst snd]. split_and!; eauto.
Qed.

(** * The model at concrete inputs *)

(** A renderer that exits with status 1 and prints [bad syntax] on its
    standard error: [MscgenError], and no file. *)
Lemma C1_failed_invocation_raises_witness :
  invocation_fails env_bad_syntax
    (renderer_argv (html_translator None) (native_format (Some image_svg)))
    sample_code /\
  exists e,
    (render_msc env_bad_syntax (html_translator None) sample_code
       (lit "/build/html/_images") (Some image_svg) world0).1 = Raised e /\
    is_MscgenError e = true /\
    files (render_msc env_bad_syntax (html_translator None) sample_code
             (lit "/build/html/_images") (Some image_svg) world0).2 = ∅.
Proof.
  assert (Hfail : invocation_fails env_bad_syntax
            (renderer_argv (html_translator None) (native_format (Some image_svg)))
            sample_code).
  { eapply nonzero_exit; [reflexivity | vm_compute; reflexivity |].
    vm_compute. discriminate. }
  split; [exact Hfail |].
  destruct (C1_failed_invocation_raises env_bad_syntax (html_translator None)
              sample_code (lit "/build/html/_images") (Some image_svg) world0 Hfail)
    as (e & _ & _ & Hr & Hf & Hk).
  exists e. split; [exact Hr |]. split; [exact Hk | exact Hf].
Defined.

(** Against C1 as stated.  Without an installed renderer the error raised
    is the [OSError] of [Popen], which is not [MscgenError].  With a
    renderer that exits with status 1 after printing [bad syntax], the
    message of the [MscgenError] is the bare template: it holds neither the
    source text nor the diagnostic output. *)
Lemma C1_counterexample :
  invocation_fails env_missing
    (renderer_argv (html_translator None) (lit "svg")) sample_code /\
  (render_msc_native env_missing (html_translator None) sample_code (lit "svg")
     world0).1 = Raised (OSError 2) /\
  is_MscgenError (OSError 2) = false /\
  invocation_fails env_bad_syntax
    (renderer_argv (html_translator None) (lit "svg")) sample_code /\
  (render_msc_native env_bad_syntax (html_translator None) sample_code (lit "svg")
     world0).1 = Raised (MscgenError cannot_render_template) /\
  str_contains cannot_render_template sample_code = false /\
  str_contains cannot_render_template (lit "bad syntax") = false.
Proof.
  split; [by eapply cannot_start |].
  split; [by vm_compute |]. split; [done |].
  split.
  { eapply nonzero_exit; [reflexivity | vm_compute; reflexivity |].
    vm_compute. discriminate. }
  split; [by vm_compute |]. split; by vm_compute.
Qed.

(** Script mode needs no renderer: with none installed the HTML visitor
    still emits the script container. *)
Lemma C3_script_mode_html_only_witness :
  body (html_visit_mscgen env_missing
          (html_translator (Some (lit "mscgen-inpage.js")))
          {| code := sample_code |} world0).2 =
    [lit "<script type=" ++ [dquote] ++ lit "text/x-mscgen" ++ [dquote] ++
       lit " data-named-style=" ++ [dquote] ++ lit "classic" ++ [dquote] ++
       lit ">" ++ [nl];
     lit "msc { a,b; a-&gt;b; }";
     lit "</script>"] /\
  trace (html_visit_mscgen env_missing
           (html_translator (Some (lit "mscgen-inpage.js")))
           {| code := sample_code |} world0).2 = [].
Proof.
  destruct (C3_script_mode_html_only env_missing
              (html_translator (Some (lit "mscgen-inpage.js")))
              {| code := sample_code |} world0 (lit "mscgen-inpage.js") eq_refl)
    as (Hrun & Htrace & _).
  split; [| exact Htrace].
  rewrite Hrun. vm_compute. reflexivity.
Defined.

(** Against C3 as stated: with [mscgen_js] set, the LaTeX visitor starts
    the renderer, feeds it the source, and emits an include-graphics
    command, not a script container. *)
Lemma C3_counterexample :
  config.mscgen_js
    (config (builder (latex_translator (Some (lit "mscgen-inpage.js"))))) =
    Some (lit "mscgen-inpage.js") /\
  trace (latex_visit_mscgen (env_ok (bytes_of_string "PNG"))
           (latex_translator (Some (lit "mscgen-inpage.js")))
           {| code := sample_code |} world0).2 =
    [EvPopen [lit "mscgen"; lit "-T"; lit "png"; lit "-o"; lit "-"];
     EvCommunicate (bytes_of_string "msc { a,b; a->b; }")] /\
  body (latex_visit_mscgen (env_ok (bytes_of_string "PNG"))
          (latex_translator (Some (lit "mscgen-inpage.js")))
          {| code := sample_code |} world0).2 =
    [[nl] ++
     lit "\noindent\sphinxincludegraphics{{mscgen-6fa459ea-ee8a-4ca4-894e-db77e1603550}.png}" ++
     [nl]].
Proof. split; [done |]. split; by vm_compute. Qed.

(** A LaTeX run that renders to png. *)
Lemma C4_image_references_witness :
  render_msc_latex (env_ok (bytes_of_string "PNG")) (latex_translator None)
    sample_code world0 =
    (Raised SkipNode,
     with_body
       (render_msc (env_ok (bytes_of_string "PNG")) (latex_translator None)
          sample_code (lit "/build/latex") (Some image_png) world0).2
       [[nl] ++ lit "\noindent\sphinxincludegraphics{{" ++
        lit "mscgen-6fa459ea-ee8a-4ca4-894e-db77e1603550" ++ lit "}." ++
        lit "png" ++ lit "}" ++ [nl]]).
Proof.
  destruct (C4_image_references (env_ok (bytes_of_string "PNG"))
              (latex_translator None) {| code := sample_code |} sample_code world0)
    as [_ Hlatex].
  destruct (Hlatex (lit "mscgen-6fa459ea-ee8a-4ca4-894e-db77e1603550") (lit "png")
              (render_msc (env_ok (bytes_of_string "PNG")) (latex_translator None)
                 sample_code (lit "/build/latex") (Some image_png) world0).2)
    as (_ & _ & Hrun).
  - vm_compute. reflexivity.
  - exact Hrun.
Defined.

(** Against C4 as stated: the argument of the LaTeX command is the base
    name in braces followed by the extension, all within the outer braces;
    the output directory [/build/latex], where the file was written, does
    not occur in it, nor does any slash. *)
Lemma C4_counterexample :
  let emitted :=
    [nl] ++
    lit "\noindent\sphinxincludegraphics{{mscgen-6fa459ea-ee8a-4ca4-894e-db77e1603550}.png}" ++
    [nl] in
  let after :=
    (latex_visit_mscgen (env_ok (bytes_of_string "PNG")) (latex_translator None)
       {| code := sample_code |} world0).2 in
  body after = [emitted] /\
  files after !! lit "/build/latex/mscgen-6fa459ea-ee8a-4ca4-894e-db77e1603550.png" =
    Some (bytes_of_string "PNG") /\
  str_contains emitted (lit "/build/latex") = false /\
  str_contains emitted [slash] = false /\
  str_contains emitted
    (lit "\sphinxincludegraphics{/build/latex/mscgen-6fa459ea-ee8a-4ca4-894e-db77e1603550}.png")
    = false.
Proof. split_and!; by vm_compute. Qed.

(** A builder that supports only gif: the HTML path fails with an error
    and leaves the body and the files as they were. *)
Lemma C5_no_common_format_is_fatal_witness :
  determine_format (env_ok (bytes_of_string "<svg/>"))
    (supported_image_types (builder text_translator)) = None /\
  (exists e,
     (render_msc_html (env_ok (bytes_of_string "<svg/>")) text_translator
        {| code := sample_code |} sample_code world0).1 = Raised e /\
     is_error e = true) /\
  files (render_msc_html (env_ok (bytes_of_string "<svg/>")) text_translator
           {| code := sample_code |} sample_code world0).2 = ∅ /\
  body (render_msc_html (env_ok (bytes_of_string "<svg/>")) text_translator
          {| code := sample_code |} sample_code world0).2 = [].
Proof.
  destruct (C5_no_common_format_is_fatal (env_ok (bytes_of_string "<svg/>"))
              text_translator {| code := sample_code |} sample_code
              (lit "/build/text") world0)
    as (Hnone & _ & _ & _ & Herr & Hfiles & Hbody & _).
  - apply determine_format_loop_None. vm_compute. reflexivity.
  - split; [exact Hnone |]. split; [exact Herr |].
    split; [exact Hfiles | exact Hbody].
Defined.

(** A renderer that prints an svg document and exits with status zero: the
    document is what is returned and what the file holds. *)
Lemma C7_success_returns_stdout_witness :
  (render_msc_native (env_ok (bytes_of_string "<svg/>")) (html_translator None)
     sample_code (lit "svg") world0).1 = Returned (bytes_of_string "<svg/>") /\
  (render_msc (env_ok (bytes_of_string "<svg/>")) (html_translator None)
     sample_code (lit "/build/html/_images") (Some image_svg) world0).1 =
    Returned (lit "mscgen-6fa459ea-ee8a-4ca4-894e-db77e1603550", lit "svg") /\
  files (render_msc (env_ok (bytes_of_string "<svg/>")) (html_translator None)
           sample_code (lit "/build/html/_images") (Some image_svg) world0).2 =
    {[ lit "/build/html/_images/mscgen-6fa459ea-ee8a-4ca4-894e-db77e1603550.svg" :=
         bytes_of_string "<svg/>" ]}.
Proof.
  destruct (C7_success_returns_stdout (env_ok (bytes_of_string "<svg/>"))
              (html_translator None) sample_code (lit "/build/html/_images")
              (Some image_svg) world0 (fun _ => (0%Z, bytes_of_string "<svg/>", []))
              (bytes_of_string "msc { a,b; a->b; }"))
    as (Hnative & Hfile).
  - reflexivity.
  - vm_compute. reflexivity.
  - reflexivity.
  - destruct (Hfile (or_intror eq_refl)) as (Hres & Hfiles).
    split; [exact Hnative |]. split; [exact Hres |]. exact Hfiles.
Defined.

(** A failed negotiation followed by a renderer that succeeds: one call
    asking for svg, then [NameError]. *)
Lemma C9_unknown_format_never_returns_witness :
  (IO.render_msc no_faults (env_ok (bytes_of_string "<svg/>")) text_translator
     sample_code (lit "/build/text") None world0).1 =
    Raised (NameError (lit "MscGenError")) /\
  popen_calls
    (trace (IO.render_msc no_faults (env_ok (bytes_of_string "<svg/>"))
              text_translator sample_code (lit "/build/text") None world0).2) =
    [[lit "mscgen"; lit "-T"; lit "svg"; lit "-o"; lit "-"]] /\
  files (IO.render_msc no_faults (env_ok (bytes_of_string "<svg/>")) text_translator
           sample_code (lit "/build/text") None world0).2 = ∅.
Proof.
  destruct (C9_unknown_format_never_returns no_faults
              (env_ok (bytes_of_string "<svg/>")) text_translator sample_code
              (lit "/build/text") None world0)
    as (_ & Hfiles & (Hcalls & Hname & _) & _); [done | done | done |].
  split; [| split; [exact Hcalls | exact Hfiles]].
  apply (Hname (bytes_of_string "<svg/>")). reflexivity.
Defined.

(** Against C9 as stated: after a failed negotiation, a renderer that exits
    with status 1 makes [render_msc] raise [MscgenError], the
    renderer-specific class, and not [NameError]; and when the output
    directory cannot be made, [render_msc] raises before any renderer is
    called. *)
Lemma C9_counterexample :
  (None : option pystr) ≠ Some image_png /\
  (None : option pystr) ≠ Some image_svg /\
  (None : option pystr) ≠ Some application_pdf /\
  (render_msc env_bad_syntax text_translator sample_code (lit "/build/text")
     None world0).1 = Raised (MscgenError cannot_render_template) /\
  is_MscgenError (MscgenError cannot_render_template) = true /\
  (forall name, MscgenError cannot_render_template ≠ NameError name) /\
  IO.render_msc faults_readonly (env_ok (bytes_of_string "<svg/>")) text_translator
    sample_code (lit "/build/text") None world0 = (Raised (OSError 13), world0) /\
  popen_calls (trace world0) = [].
Proof.
  split; [done |]. split; [done |]. split; [done |].
  split; [reflexivity |]. split; [reflexivity |].
  split; [done |]. split; [reflexivity | reflexivity].
Qed.

(** The euro sign, U+20AC, with a renderer that starts. *)
Lemma C10_unencodable_source_witness :
  (render_msc_native (env_ok (bytes_of_string "<svg/>")) (html_translator None)
     [8364] (lit "svg") world0).1 =
    Raised (UnicodeEncodeError (lit "latin-1") 0) /\
  communicate_inputs
    (trace (render_msc_native (env_ok (bytes_of_string "<svg/>"))
              (html_translator None) [8364] (lit "svg") world0).2) = [].
Proof.
  destruct (C10_unencodable_source (env_ok (bytes_of_string "<svg/>"))
              (html_translator None) [8364] (lit "svg") world0 8364)
    as (_ & _ & Hfed & _).
  - apply list_elem_of_here.
  - reflexivity.
  - split; [vm_compute; reflexivity | exact Hfed].
Defined.

(** Against C10 as stated: for the same text, when the renderer is not
    installed, the error raised is the [OSError] of [Popen]; the text is
    never encoded. *)
Lemma C10_counterexample :
  (8364 : N) ∈ ([8364] : pystr) /\ 255 < 8364 /\
  (render_msc_native env_missing (html_translator None) [8364] (lit "svg")
     world0).1 = Raised (OSError 2) /\
  (forall codec position, OSError 2 ≠ UnicodeEncodeError codec position).
Proof.
  split; [apply list_elem_of_here |]. split; [done |].
  split; [by vm_compute | done].
Qed.

(** * Further properties of the module *)

(** ** What [render_msc] does to the world *)

(** The directory, the identifier counter and the body after [render_msc],
    over system calls that succeed. *)
Lemma render_msc_world (E : Env) (self : Translator) (code outpath : pystr)
    (fmt : option pystr) (w : World) :
  let w' := (render_msc E self code outpath fmt w).2 in
  dirs w' = {[outpath]} ∪ dirs w /\ uuid_calls w' = S (uuid_calls w) /\
  body w' = body w.
Proof.
  rewrite render_msc_run.
  pose proof (render_msc_native_frame E self code (native_format fmt)
                (prepared outpath w)) as (_ & Hd & Hb & Hu & _).
  destruct (render_msc_native E self code _ (prepared outpath w)) as [[img | e] w'];
    cbn [fst snd dirs body uuid_calls prepared] in *; [| done].
  repeat case_bool_decide; try done.
  destruct (cairosvg E) as [svg2pdf |]; [| done].
  by destruct (svg2pdf img).
Qed.

(** The files after [render_msc], over system calls that succeed:
    untouched when it raises, one entry set when it returns. *)
Lemma render_msc_files (E : Env) (self : Translator) (code outpath : pystr)
    (fmt : option pystr) (w : World) :
  match (render_msc E self code outpath fmt w).1 with
  | Raised _ => files (render_msc E self code outpath fmt w).2 = files w
  | Returned (fn, ext) =>
      fn = basename E w /\
      (fmt = Some image_png /\ ext = lit "png" \/
       fmt = Some image_svg /\ ext = lit "svg" \/
       fmt = Some application_pdf /\ ext = lit "pdf") /\
      exists data,
        files (render_msc E self code outpath fmt w).2 =
          <[os_path_join outpath (fn ++ lit "." ++ ext) := data]> (files w)
  end.
Proof.
  rewrite render_msc_run.
  pose proof (render_msc_native_frame E self code (native_format fmt)
                (prepared outpath w)) as (Hf & _).
  destruct (render_msc_native E self code _ (prepared outpath w)) as [[img | e] w'];
    cbn [fst snd files prepared] in *; [| done].
  repeat case_bool_decide; cbn [fst snd].
  - split; [done |]. split; [by left |]. simpl. rewrite Hf. eauto.
  - split; [done |]. split; [by right; left |]. simpl. rewrite Hf. eauto.
  - destruct (cairosvg E) as [svg2pdf |]; [| done].
    destruct (svg2pdf img) as [pdf | e]; cbn [fst snd]; [| done].
    split; [done |]. split; [by right; right |]. simpl. rewrite Hf. eauto.
  - done.
Qed.


(** ** The PDF path *)

(** X2: for [application/pdf] with cairosvg installed, the renderer is
    asked for svg, its output goes through [svg2pdf], and the file
    [<base name>.pdf] holds the converted bytes; the svg itself is stored
    nowhere. *)
Theorem render_msc_pdf_converts (E : Env) (self : Translator)
    (code outpath : pystr) (w : World) (p : Process) (input : pybytes)
    (svg2pdf : pybytes -> result pybytes) (pdf : pybytes) :
  cairosvg E = Some svg2pdf ->
  popen E (renderer_argv self (lit "svg")) = inr p ->
  encode_iso_8859_1 code = Returned input ->
  (p input).1.1 = 0%Z ->
  svg2pdf (p input).1.2 = Returned pdf ->
  let r := render_msc E self code outpath (Some application_pdf) w in
  r.1 = Returned (basename E w, lit "pdf") /\
  files r.2 =
    <[os_path_join outpath (basename E w ++ lit ".pdf") := pdf]> (files w) /\
  popen_calls (trace r.2) =
    popen_calls (trace w) ++ [renderer_argv self (lit "svg")].
Proof.
  intros Hcairo Hp Hc Hrc Hconv r. subst r.
  pose proof (render_msc_frame E self code outpath (Some application_pdf) w)
    as (_ & Ht).
  split_and!; [| | exact Ht].
  all: rewrite render_msc_run;
    pose proof (render_msc_native_exit E self code (lit "svg")
                  (prepared outpath w) p input Hp Hc) as Hn;
    rewrite bool_decide_eq_false_2 in Hn by (by intros []);
    pose proof (render_msc_native_frame E self code (lit "svg")
                  (prepared outpath w)) as (Hf & _);
    change (native_format (Some application_pdf)) with (lit "svg");
    destruct (render_msc_native E self code _ (prepared outpath w))
      as [[img | e] w']; cbn [fst snd files prepared] in *; [| done];
    injection Hn as ->;
    rewrite !bool_decide_eq_false_2 by done;
    rewrite bool_decide_eq_true_2 by done;
    rewrite Hcairo, Hconv.
  - done.
  - simpl. by rewrite Hf.
Qed.

(** X3: what can go wrong on the PDF path after the renderer has returned
    its svg.  Without cairosvg the name [cairosvg] is undefined:
    [NameError], and no file.  An error of the converter is raised as it
    is; the converter was handed the path, so the target holds whatever the
    converter had put there by then, and [render_msc] does not remove it.
    A converted document that cannot be written in full leaves the part
    that was written.  Only when all of this succeeds does [render_msc]
    return, with the converted document in the target. *)
Theorem render_msc_pdf_failures (F : Faults) (E : Env) (self : Translator)
    (code outpath : pystr) (w : World) (svg : pybytes) :
  ensuredir_raises F outpath = None ->
  (IO.render_msc_native F E self code (lit "svg") (prepared outpath w)).1 =
    Returned svg ->
  let r := IO.render_msc F E self code outpath (Some application_pdf) w in
  let target := os_path_join outpath (basename E w ++ lit ".pdf") in
  match cairosvg E with
  | None => r.1 = Raised (NameError (lit "cairosvg")) /\ files r.2 = files w
  | Some convert =>
      match convert svg with
      | Raised e =>
          r.1 = Raised e /\
          files r.2 =
            match svg2pdf_leaves F svg with
            | Some remains => <[target := remains]> (files w)
            | None => files w
            end
      | Returned pdf =>
          match open_raises F target, write_raises F target pdf with
          | Some e, _ => r.1 = Raised e /\ files r.2 = files w
          | None, Some (e, n) =>
              r.1 = Raised e /\ files r.2 = <[target := take n pdf]> (files w)
          | None, None =>
              r.1 = Returned (basename E w, lit "pdf") /\
              files r.2 = <[target := pdf]> (files w)
          end
      end
  end.
Proof.
  intros Hdir Hn r target. subst r target. rewrite io_render_msc_run, Hdir.
  pose proof (io_render_msc_native_frame F E self code (lit "svg")
                (prepared outpath w)) as (Hf & _).
  change (native_format (Some application_pdf)) with (lit "svg").
  destruct (IO.render_msc_native F E self code _ (prepared outpath w))
    as [[img | e] w']; cbn [fst snd files prepared] in *; [| done].
  injection Hn as ->.
  rewrite !bool_decide_eq_false_2 by done.
  rewrite bool_decide_eq_true_2 by done.
  destruct (cairosvg E) as [convert |]; [| done].
  cbv zeta. unfold IO.svg2pdf, IO.write_file.
  change (basename E w ++ lit "." ++ lit "pdf") with (basename E w ++ lit ".pdf").
  destruct (convert svg) as [pdf | e].
  - destruct (open_raises F _) as [e |]; [done |].
    destruct (write_raises F _ pdf) as [[e n] |]; simpl; by rewrite Hf.
  - destruct (svg2pdf_leaves F svg) as [remains |]; simpl; by rewrite Hf.
Qed.

(** ** Negotiation and conversion *)

Lemma render_msc_native_not_NameError (E : Env) (self : Translator)
    (code fmt : pystr) (w : World) (name : pystr) :
  (render_msc_native E self code fmt w).1 ≠ Raised (NameError name).
Proof.
  rewrite render_msc_native_run.
  destruct (popen E (renderer_argv self fmt)) as [errno | p]; [done |].
  destruct (encode_iso_8859_1 code) as [input | e] eqn:He; cbn [fst].
  - by case_bool_decide.
  - by destruct (encode_iso_8859_1_from_Raised _ _ _ He) as (i & c & -> & _).
Qed.

(** X4: without cairosvg the negotiation never answers [application/pdf],
    whatever the builder supports, so rendering with the negotiated format
    never runs into the undefined name [cairosvg]. *)
Theorem negotiation_never_needs_missing_cairosvg (E : Env) (self : Translator)
    (code outpath : pystr) (supported : list pystr) (w : World) :
  cairosvg E = None ->
  determine_format E supported ≠ Some application_pdf /\
  (forall f, determine_format E supported = Some f ->
     f = image_svg \/ f = image_png) /\
  (render_msc E self code outpath (determine_format E supported) w).1 ≠
    Raised (NameError (lit "cairosvg")).
Proof.
  intros Hcairo.
  assert (Hfmt : determine_format E supported = Some image_svg \/
                 determine_format E supported = Some image_png \/
                 determine_format E supported = None).
  { unfold determine_format, preferred_formats. rewrite Hcairo. simpl.
    repeat destruct (list_contains supported _); auto. }
  assert (Hpdf : determine_format E supported ≠ Some application_pdf).
  { by destruct Hfmt as [-> | [-> | ->]]. }
  split; [done |]. split.
  { intros f Hf. rewrite Hf in Hfmt.
    destruct Hfmt as [[= ->] | [[= ->] | [=]]]; auto. }
  rewrite render_msc_run.
  pose proof (render_msc_native_not_NameError E self code
                (native_format (determine_format E supported))
                (prepared outpath w) (lit "cairosvg")) as Hn.
  destruct (render_msc_native E self code _ (prepared outpath w))
    as [[img | e] w']; cbn [fst snd] in *.
  - by repeat case_bool_decide.
  - intros [= ->]. by apply Hn.
Qed.

(** ** The outcomes of one invocation *)

(** The position in [UnicodeEncodeError] is that of the first character
    that does not fit. *)
Lemma encode_iso_8859_1_from_first (pos : nat) (s : pystr) (e : exn) :
  encode_iso_8859_1_from pos s = Raised e ->
  exists i d, e = UnicodeEncodeError (lit "latin-1") (pos + i)%nat /\
              s !! i = Some d /\ 255 < d /\
              forall j c, (j < i)%nat -> s !! j = Some c -> c <= 255.
Proof.
  revert pos. induction s as [| c s IH]; intros pos; simpl; [done |].
  destruct (Byte.of_N c) as [b |] eqn:Hb.
  - destruct (encode_iso_8859_1_from (S pos) s) as [r | e'] eqn:Hr; [done |].
    intros [= <-]. destruct (IH _ Hr) as (i & d & -> & Hi & Hd & Hfirst).
    exists (S i), d. split; [f_equal; lia |]. split; [done |]. split; [done |].
    intros [| j] c' Hj Hc'.
    + injection Hc' as <-. apply Byte.to_of_N in Hb. subst c.
      apply Byte.to_N_bounded.
    + apply (Hfirst j); [lia | done].
  - intros [= <-]. exists 0%nat, c. rewrite Nat.add_0_r.
    split; [done |]. split; [done |].
    split; [by apply Byte.of_N_None_iff | lia].
Qed.

(** X5: where each outcome of [render_msc_native] comes from.  The one
    exception of its own is [MscgenError], raised when the process was
    started, fed the whole text and exited with a status other than zero.
    Every other exception is that of a call it makes, passed on unchanged:
    whatever [Popen] raises, [OSError] or not (the [except] clause only
    re-raises); the [UnicodeEncodeError] of [encode], at the position of
    the first character above U+00FF, once the process has been started;
    whatever [communicate] raises.  It returns only the standard output of
    a process that exited with status zero.  Building the error message
    never fails, whatever the source text and the diagnostic output
    contain. *)
Theorem render_msc_native_outcomes (F : Faults) (E : Env) (self : Translator)
    (code fmt : pystr) (w : World) :
  let r := (IO.render_msc_native F E self code fmt w).1 in
  let argv := renderer_argv self fmt in
  (forall e, r = Raised e ->
     popen_raises F argv = Some e \/
     (exists errno, e = OSError errno /\
        popen_raises F argv = None /\ popen E argv = inl errno) \/
     (exists p i d, e = UnicodeEncodeError (lit "latin-1") i /\
        popen_raises F argv = None /\ popen E argv = inr p /\
        code !! i = Some d /\ 255 < d /\
        forall j c, (j < i)%nat -> code !! j = Some c -> c <= 255) \/
     (exists p input,
        popen_raises F argv = None /\ popen E argv = inr p /\
        encode_iso_8859_1 code = Returned input /\
        communicate_raises F input = Some e) \/
     (exists p input, e = MscgenError cannot_render_template /\
        popen_raises F argv = None /\ popen E argv = inr p /\
        encode_iso_8859_1 code = Returned input /\
        communicate_raises F input = None /\
        (p input).1.1 ≠ 0%Z)) /\
  (forall img, r = Returned img ->
     exists p input,
       popen_raises F argv = None /\ popen E argv = inr p /\
       encode_iso_8859_1 code = Returned input /\
       communicate_raises F input = None /\
       (p input).1.1 = 0%Z /\ (p input).1.2 = img).
Proof.
  intros r argv. subst r argv. rewrite io_render_msc_native_run. cbv zeta.
  destruct (popen_raises F (renderer_argv self fmt)) as [e0 |]; cbn [fst].
  { split; [| done]. intros e [= <-]. by left. }
  destruct (popen E (renderer_argv self fmt)) as [errno | p]; cbn [fst].
  { split; [| done]. intros e [= <-]. right; left. by exists errno. }
  destruct (encode_iso_8859_1 code) as [input | e'] eqn:He; cbn [fst].
  - destruct (communicate_raises F input) as [e0 |] eqn:Hcomm.
    { split; [| done]. intros e [= <-]. do 3 right. left. by exists p, input. }
    case_bool_decide as Hrc.
    + split; [| done]. intros e [= <-]. do 4 right. by exists p, input.
    + split; [done |]. intros img [= <-]. exists p, input.
      split_and!; try done.
  - split; [| done]. intros e [= <-].
    destruct (encode_iso_8859_1_from_first _ _ _ He)
      as (i & d & -> & Hi & Hd & Hfirst).
    right; right; left. by exists p, i, d.
Qed.

(** ** The visitors *)

(** What the LaTeX visitor makes of the outcome of [IO.render_msc]. *)
Lemma io_render_msc_latex_outcome (F : Faults) (E : Env) (self : Translator)
    (code : pystr) (w : World) :
  let fmt := determine_format E (supported_image_types (builder self)) in
  let ldir := outdir (builder self) in
  let l := IO.render_msc_latex F E self code w in
  match (IO.render_msc F E self code ldir fmt w).1 with
  | Raised e => l.1 = Raised e /\ body l.2 = body w
  | Returned (fn, ext) =>
      l.1 = Raised SkipNode /\
      is_Some (files l.2 !! os_path_join ldir (fn ++ lit "." ++ ext)) /\
      body l.2 =
        body w ++
        [[nl] ++ lit "\noindent\sphinxincludegraphics{{" ++ fn ++ lit "}." ++
         ext ++ lit "}" ++ [nl]]
  end.
Proof.
  intros fmt ldir l. subst l. rewrite io_render_msc_latex_run. fold fmt ldir.
  destruct (io_render_msc_world F E self code ldir fmt w) as (Hb & _ & Hr).
  destruct (IO.render_msc F E self code ldir fmt w) as [[[fn ext] | e] w'];
    cbn [fst snd] in *; [| done].
  destruct (Hr fn ext eq_refl) as (_ & _ & data & Hdata).
  split; [done |]. simpl. rewrite Hdata, Hb, lookup_insert_eq. by eauto.
Qed.

(** What the HTML visitor makes of it, in image mode. *)
Lemma io_render_msc_html_outcome (F : Faults) (E : Env) (self : Translator)
    (node : mscgen) (code : pystr) (w : World) :
  let fmt := determine_format E (supported_image_types (builder self)) in
  let hdir := os_path_join (outdir (builder self)) (html_imgpath self) in
  let h := IO.render_msc_html F E self node code w in
  match (IO.render_msc F E self code hdir fmt w).1 with
  | Raised e => h.1 = Raised e /\ body h.2 = body w
  | Returned (fn, ext) =>
      h.1 = Raised SkipNode /\
      is_Some (files h.2 !! os_path_join hdir (fn ++ lit "." ++ ext)) /\
      body h.2 =
        body w ++
        [starttag self node (lit "p") [(lit "class", lit "mscgen")];
         lit "<img src=" ++ [dquote] ++ os_path_join (html_imgpath self) fn ++
           lit "." ++ ext ++ [dquote] ++ lit " alt=" ++ [dquote] ++
           strip (encode self code) ++ [dquote] ++ lit "/>" ++ [nl];
         lit "</p>" ++ [nl]]
  end.
Proof.
  intros fmt hdir h. subst h. rewrite io_render_msc_html_run. fold fmt hdir.
  destruct (io_render_msc_world F E self code hdir fmt w) as (Hb & _ & Hr).
  destruct (IO.render_msc F E self code hdir fmt w) as [[[fn ext] | e] w'];
    cbn [fst snd] in *; [| done].
  destruct (Hr fn ext eq_refl) as (_ & _ & data & Hdata).
  split; [done |]. simpl. rewrite Hdata, Hb, lookup_insert_eq. by eauto.
Qed.

(** X6: no visitor returns normally.  In image mode a visitor appends
    markup only once [render_msc] has returned, and the file the markup
    names is then on disk, under the output directory; when [render_msc]
    raises, whatever has failed, that exception leaves the visitor and
    the body is as it was.  In script mode the HTML visitor appends the
    script container and raises [SkipNode] with no file and no process. *)
Theorem visitors_emit_only_after_the_image (F : Faults) (E : Env)
    (self : Translator) (node : mscgen) (w : World) :
  let fmt := determine_format E (supported_image_types (builder self)) in
  let hdir := os_path_join (outdir (builder self)) (html_imgpath self) in
  let ldir := outdir (builder self) in
  let h := IO.html_visit_mscgen F E self node w in
  let l := IO.latex_visit_mscgen F E self node w in
  (exists e, h.1 = Raised e) /\ (exists e, l.1 = Raised e) /\
  match config.mscgen_js (config (builder self)) with
  | Some _ =>
      h.1 = Raised SkipNode /\ files h.2 = files w /\ trace h.2 = trace w /\
      body h.2 =
        body w ++
        [starttag self node (lit "script")
           [(lit "type", lit "text/x-mscgen");
            (lit "data-named-style", lit "classic")];
         encode self (code node);
         lit "</script>"]
  | None =>
      match (IO.render_msc F E self (code node) hdir fmt w).1 with
      | Raised e => h.1 = Raised e /\ body h.2 = body w
      | Returned (fn, ext) =>
          h.1 = Raised SkipNode /\
          is_Some (files h.2 !! os_path_join hdir (fn ++ lit "." ++ ext)) /\
          body h.2 =
            body w ++
            [starttag self node (lit "p") [(lit "class", lit "mscgen")];
             lit "<img src=" ++ [dquote] ++ os_path_join (html_imgpath self) fn ++
               lit "." ++ ext ++ [dquote] ++ lit " alt=" ++ [dquote] ++
               strip (encode self (code node)) ++ [dquote] ++ lit "/>" ++ [nl];
             lit "</p>" ++ [nl]]
      end
  end /\
  match (IO.render_msc F E self (code node) ldir fmt w).1 with
  | Raised e => l.1 = Raised e /\ body l.2 = body w
  | Returned (fn, ext) =>
      l.1 = Raised SkipNode /\
      is_Some (files l.2 !! os_path_join ldir (fn ++ lit "." ++ ext)) /\
      body l.2 =
        body w ++
        [[nl] ++ lit "\noindent\sphinxincludegraphics{{" ++ fn ++ lit "}." ++
         ext ++ lit "}" ++ [nl]]
  end.
Proof.
  intros fmt hdir ldir h l. subst h l.
  unfold IO.html_visit_mscgen, IO.latex_visit_mscgen.
  pose proof (io_render_msc_latex_outcome F E self (code node) w) as Hl.
  pose proof (io_render_msc_html_outcome F E self node (code node) w) as Hh.
  cbv zeta in Hl, Hh. fold fmt hdir ldir in Hl, Hh.
  assert (Hlraises : exists e, (IO.render_msc_latex F E self (code node) w).1 = Raised e).
  { destruct (IO.render_msc F E self (code node) ldir fmt w).1 as [[fn ext] | e];
      destruct Hl as [Hl _]; by eauto. }
  split_and!; [| done | | done].
  - destruct (config.mscgen_js (config (builder self))) as [js |].
    + rewrite render_msc_html_js_run. by eauto.
    + destruct (IO.render_msc F E self (code node) hdir fmt w).1 as [[fn ext] | e];
        destruct Hh as [Hh _]; by eauto.
  - destruct (config.mscgen_js (config (builder self))) as [js |]; [| done].
    by rewrite render_msc_html_js_run.
Qed.

(** [render_msc] for svg when the renderer succeeds, with the world it
    leaves. *)
Lemma render_msc_svg_run (E : Env) (self : Translator) (code outpath : pystr)
    (w : World) (p : Process) (input : pybytes) :
  popen E (renderer_argv self (lit "svg")) = inr p ->
  encode_iso_8859_1 code = Returned input ->
  (p input).1.1 = 0%Z ->
  render_msc E self code outpath (Some image_svg) w =
    (Returned (basename E w, lit "svg"),
     (write_file (os_path_join outpath (basename E w ++ lit ".svg")) (p input).1.2
        (log (EvCommunicate input)
           (log (EvPopen (renderer_argv self (lit "svg")))
              (prepared outpath w)))).2).
Proof.
  intros Hp Hc Hrc. rewrite render_msc_run, render_msc_native_run.
  change (native_format (Some image_svg)) with (lit "svg").
  rewrite Hp, Hc, (bool_decide_eq_false_2 (_ ≠ _)) by (by intros []).
  rewrite bool_decide_eq_false_2 by done.
  by rewrite bool_decide_eq_true_2.
Qed.

(** [render_msc] for pdf when the renderer and the converter succeed. *)
Lemma render_msc_pdf_run (E : Env) (self : Translator) (code outpath : pystr)
    (w : World) (p : Process) (input : pybytes)
    (svg2pdf : pybytes -> result pybytes) (pdf : pybytes) :
  cairosvg E = Some svg2pdf ->
  popen E (renderer_argv self (lit "svg")) = inr p ->
  encode_iso_8859_1 code = Returned input ->
  (p input).1.1 = 0%Z ->
  svg2pdf (p input).1.2 = Returned pdf ->
  render_msc E self code outpath (Some application_pdf) w =
    (Returned (basename E w, lit "pdf"),
     (write_file (os_path_join outpath (basename E w ++ lit ".pdf")) pdf
        (log (EvCommunicate input)
           (log (EvPopen (renderer_argv self (lit "svg")))
              (prepared outpath w)))).2).
Proof.
  intros Hcairo Hp Hc Hrc Hconv. rewrite render_msc_run, render_msc_native_run.
  change (native_format (Some application_pdf)) with (lit "svg").
  rewrite Hp, Hc, (bool_decide_eq_false_2 (_ ≠ _)) by (by intros []).
  rewrite !bool_decide_eq_false_2 by done.
  by rewrite bool_decide_eq_true_2, Hcairo, Hconv.
Qed.

Lemma determine_format_svg (E : Env) (supported : list pystr) :
  image_svg ∈ supported -> determine_format E supported = Some image_svg.
Proof.
  intros Hin. unfold determine_format, preferred_formats.
  destruct (cairosvg E); simpl;
    by rewrite (proj2 (list_contains_true supported image_svg) Hin).
Qed.

Lemma determine_format_pdf (E : Env) (supported : list pystr) :
  is_Some (cairosvg E) -> image_svg ∉ supported -> application_pdf ∈ supported ->
  determine_format E supported = Some application_pdf.
Proof.
  intros [conv Hc] Hsvg Hpdf. unfold determine_format, preferred_formats.
  rewrite Hc. simpl.
  rewrite (proj2 (list_contains_false supported image_svg) Hsvg).
  by rewrite (proj2 (list_contains_true supported application_pdf) Hpdf).
Qed.

(** X7: the HTML visitor from end to end.  In image mode, for a builder
    that takes svg and a renderer that exits with status zero, it writes
    the renderer's output to [<outdir>/<imgpath>/<base name>.svg], creates
    that directory, appends the paragraph with the image tag whose source
    is [<imgpath>/<base name>.svg], and raises [SkipNode]. *)
Theorem html_visit_renders_svg (E : Env) (self : Translator) (node : mscgen)
    (w : World) (p : Process) (input : pybytes) :
  config.mscgen_js (config (builder self)) = None ->
  image_svg ∈ supported_image_types (builder self) ->
  popen E (renderer_argv self (lit "svg")) = inr p ->
  encode_iso_8859_1 (code node) = Returned input ->
  (p input).1.1 = 0%Z ->
  let r := html_visit_mscgen E self node w in
  let dir := os_path_join (outdir (builder self)) (html_imgpath self) in
  r.1 = Raised SkipNode /\
  files r.2 =
    <[os_path_join dir (basename E w ++ lit ".svg") := (p input).1.2]> (files w) /\
  dir ∈ dirs r.2 /\
  body r.2 =
    body w ++
    [starttag self node (lit "p") [(lit "class", lit "mscgen")];
     lit "<img src=" ++ [dquote] ++
       os_path_join (html_imgpath self) (basename E w) ++ lit ".svg" ++ [dquote] ++
       lit " alt=" ++ [dquote] ++ strip (encode self (code node)) ++ [dquote] ++
       lit "/>" ++ [nl];
     lit "</p>" ++ [nl]].
Proof.
  intros Hjs Hsvg Hp Hc Hrc r dir. subst r dir.
  unfold html_visit_mscgen. rewrite Hjs, render_msc_html_run.
  rewrite (determine_format_svg _ _ Hsvg).
  rewrite (render_msc_svg_run _ _ _ _ _ _ _ Hp Hc Hrc).
  cbn [fst snd with_body write_file log prepared files dirs body].
  split_and!; try done.
  by apply elem_of_union_l, elem_of_singleton.
Qed.

(** X8: the LaTeX visitor from end to end on the PDF path.  With cairosvg
    installed, for a builder that takes pdf but not svg, the renderer is
    asked for svg, the converted bytes are written to
    [<outdir>/<base name>.pdf], and the include-graphics line names the
    base name and [pdf]. *)
Theorem latex_visit_renders_pdf (E : Env) (self : Translator) (node : mscgen)
    (w : World) (p : Process) (input : pybytes)
    (svg2pdf : pybytes -> result pybytes) (pdf : pybytes) :
  cairosvg E = Some svg2pdf ->
  image_svg ∉ supported_image_types (builder self) ->
  application_pdf ∈ supported_image_types (builder self) ->
  popen E (renderer_argv self (lit "svg")) = inr p ->
  encode_iso_8859_1 (code node) = Returned input ->
  (p input).1.1 = 0%Z ->
  svg2pdf (p input).1.2 = Returned pdf ->
  let r := latex_visit_mscgen E self node w in
  r.1 = Raised SkipNode /\
  files r.2 =
    <[os_path_join (outdir (builder self)) (basename E w ++ lit ".pdf") := pdf]>
      (files w) /\
  popen_calls (trace r.2) =
    popen_calls (trace w) ++ [renderer_argv self (lit "svg")] /\
  body r.2 =
    body w ++
    [[nl] ++ lit "\noindent\sphinxincludegraphics{{" ++ basename E w ++
     lit "}.pdf}" ++ [nl]].
Proof.
  intros Hcairo Hsvg Hpdf Hp Hc Hrc Hconv r. subst r.
  unfold latex_visit_mscgen. rewrite render_msc_latex_run.
  rewrite (determine_format_pdf _ _ (mk_is_Some _ _ Hcairo) Hsvg Hpdf).
  rewrite (render_msc_pdf_run _ _ _ _ _ _ _ _ _ Hcairo Hp Hc Hrc Hconv).
  cbn [fst snd with_body write_file log prepared files dirs body trace].
  split_and!; try done.
  rewrite !popen_calls_app. simpl. by rewrite app_nil_r.
Qed.

(** X9: the fallback of the image path.  When the builder has no
    [imgpath], or an empty one, the HTML visitor uses [.]: the image is
    written to [<outdir>/./<base name>.svg] and the tag refers to
    [./<base name>.svg]. *)
Theorem html_visit_without_imgpath (E : Env) (self : Translator) (node : mscgen)
    (w : World) (p : Process) (input : pybytes) :
  imgpath (builder self) = None \/ imgpath (builder self) = Some [] ->
  outdir (builder self) ≠ [] ->
  endswith (outdir (builder self)) [slash] = false ->
  config.mscgen_js (config (builder self)) = None ->
  image_svg ∈ supported_image_types (builder self) ->
  popen E (renderer_argv self (lit "svg")) = inr p ->
  encode_iso_8859_1 (code node) = Returned input ->
  (p input).1.1 = 0%Z ->
  let r := html_visit_mscgen E self node w in
  r.1 = Raised SkipNode /\
  files r.2 =
    <[outdir (builder self) ++ lit "/./" ++ basename E w ++ lit ".svg" :=
        (p input).1.2]> (files w) /\
  outdir (builder self) ++ lit "/." ∈ dirs r.2 /\
  body r.2 =
    body w ++
    [starttag self node (lit "p") [(lit "class", lit "mscgen")];
     lit "<img src=" ++ [dquote] ++ lit "./" ++ basename E w ++ lit ".svg" ++
       [dquote] ++ lit " alt=" ++ [dquote] ++ strip (encode self (code node)) ++
       [dquote] ++ lit "/>" ++ [nl];
     lit "</p>" ++ [nl]].
Proof.
  intros Himg Hne Hslash Hjs Hsvg Hp Hc Hrc r. subst r.
  assert (Hdot : html_imgpath self = lit ".").
  { unfold html_imgpath. by destruct Himg as [-> | ->]. }
  assert (Hdir : os_path_join (outdir (builder self)) (lit ".") =
                 outdir (builder self) ++ lit "/.").
  { unfold os_path_join. simpl startswith. cbv iota. rewrite Hslash.
    by destruct (outdir (builder self)). }
  assert (Hfile : os_path_join (outdir (builder self) ++ lit "/.")
                    (basename E w ++ lit ".svg") =
                  outdir (builder self) ++ lit "/./" ++ basename E w ++ lit ".svg").
  { unfold os_path_join, endswith. rewrite rev_app_distr. simpl.
    destruct (outdir (builder self)) as [| c o]; [done |].
    simpl. by rewrite <- app_assoc. }
  unfold html_visit_mscgen. rewrite Hjs, render_msc_html_run.
  rewrite (determine_format_svg _ _ Hsvg), Hdot, Hdir.
  rewrite (render_msc_svg_run _ _ _ _ _ _ _ Hp Hc Hrc).
  cbn [fst snd with_body write_file log prepared files dirs body].
  rewrite Hfile. split_and!; try done.
  by apply elem_of_union_l, elem_of_singleton.
Qed.

(** ** One file per identifier *)

(** Within one directory, the path of the image determines the identifier
    and the extension it was built from. *)
Lemma image_path_inj (outpath u1 u2 e1 e2 : pystr) :
  length e1 = length e2 ->
  os_path_join outpath ((lit "mscgen-" ++ u1) ++ lit "." ++ e1) =
  os_path_join outpath ((lit "mscgen-" ++ u2) ++ lit "." ++ e2) ->
  u1 = u2 /\ e1 = e2.
Proof.
  intros Hlen. unfold os_path_join. simpl startswith. cbv iota.
  intros Heq.
  assert (Hnames : (lit "mscgen-" ++ u1) ++ lit "." ++ e1 =
                   (lit "mscgen-" ++ u2) ++ lit "." ++ e2).
  { destruct (match outpath with [] => true | _ => endswith outpath [slash] end).
    - by apply app_inv_head in Heq.
    - apply app_inv_head in Heq. by apply app_inv_head in Heq. }
  apply app_inj_2 in Hnames as [Hu He]; [| simpl; by rewrite Hlen].
  split; [by apply app_inv_head in Hu | by apply app_inv_head in He].
Qed.

Lemma render_msc_extension_length (E : Env) (self : Translator)
    (code outpath : pystr) (fmt : option pystr) (w w' : World) (fn ext : pystr) :
  render_msc E self code outpath fmt w = (Returned (fn, ext), w') ->
  fn = basename E w /\ length ext = 3%nat /\
  (fmt = Some image_png /\ ext = lit "png" \/
   fmt = Some image_svg /\ ext = lit "svg" \/
   fmt = Some application_pdf /\ ext = lit "pdf") /\
  uuid_calls w' = S (uuid_calls w) /\
  exists data,
    files w' = <[os_path_join outpath (fn ++ lit "." ++ ext) := data]> (files w).
Proof.
  intros Hr.
  pose proof (render_msc_files E self code outpath fmt w) as Hf.
  pose proof (render_msc_world E self code outpath fmt w) as (_ & Hu & _).
  rewrite Hr in Hf, Hu. cbn [fst snd] in *.
  destruct Hf as (Hfn & Hext & Hdata). split_and!; try done.
  by destruct Hext as [[_ ->] | [[_ ->] | [_ ->]]].
Qed.

(** X10: two diagrams rendered one after the other into the same directory
    get different file names as soon as the two identifiers drawn differ,
    and the second rendering leaves the first image as it was. *)
Theorem distinct_identifiers_keep_both_files (E : Env) (self self' : Translator)
    (code code' outpath : pystr) (fmt fmt' : option pystr) (w w1 w2 : World)
    (fn ext fn' ext' : pystr) :
  render_msc E self code outpath fmt w = (Returned (fn, ext), w1) ->
  render_msc E self' code' outpath fmt' w1 = (Returned (fn', ext'), w2) ->
  uuid4_str E (uuid_calls w) ≠ uuid4_str E (S (uuid_calls w)) ->
  let path := os_path_join outpath (fn ++ lit "." ++ ext) in
  let path' := os_path_join outpath (fn' ++ lit "." ++ ext') in
  fn ≠ fn' /\ path ≠ path' /\
  is_Some (files w1 !! path) /\
  is_Some (files w2 !! path') /\
  files w2 !! path = files w1 !! path.
Proof.
  intros Hr Hr' Huuid path path'. subst path path'.
  destruct (render_msc_extension_length _ _ _ _ _ _ _ _ _ Hr)
    as (-> & Hlen & _ & Hu & data & Hf).
  destruct (render_msc_extension_length _ _ _ _ _ _ _ _ _ Hr')
    as (-> & Hlen' & _ & _ & data' & Hf').
  unfold basename in *. rewrite Hu in *.
  assert (Hpath : os_path_join outpath
                    ((lit "mscgen-" ++ uuid4_str E (uuid_calls w)) ++ lit "." ++ ext) ≠
                  os_path_join outpath
                    ((lit "mscgen-" ++ uuid4_str E (S (uuid_calls w))) ++ lit "." ++ ext')).
  { intros Heq. apply image_path_inj in Heq as [Heq _]; [done | congruence]. }
  split_and!.
  - intros Heq. by apply app_inv_head in Heq.
  - done.
  - rewrite Hf, lookup_insert_eq. eauto.
  - rewrite Hf', lookup_insert_eq. eauto.
  - rewrite Hf'. by rewrite lookup_insert_ne.
Qed.

(** What a rendering that returns has written does not depend on the world
    it starts from, as long as the identifier drawn is the same. *)
Lemma render_msc_written (E : Env) (self : Translator) (code outpath : pystr)
    (fmt : option pystr) (x x' : World) (fn ext : pystr) :
  render_msc E self code outpath fmt x = (Returned (fn, ext), x') ->
  exists data,
    files x' = <[os_path_join outpath (fn ++ lit "." ++ ext) := data]> (files x) /\
    forall y, basename E y = basename E x ->
      (render_msc E self code outpath fmt y).1 = Returned (fn, ext) /\
      files (render_msc E self code outpath fmt y).2 =
        <[os_path_join outpath (fn ++ lit "." ++ ext) := data]> (files y).
Proof.
  rewrite render_msc_run.
  pose proof (render_msc_native_frame E self code (native_format fmt)
                (prepared outpath x)) as (Hfx & _).
  destruct (render_msc_native E self code _ (prepared outpath x)) as [[img | e] x1]
    eqn:Hx; cbn [fst snd files prepared] in *; [| done].
  assert (Hy : forall y, exists y1,
             render_msc_native E self code (native_format fmt) (prepared outpath y) =
               (Returned img, y1) /\ files y1 = files y).
  { intros y.
    pose proof (render_msc_native_result E self code (native_format fmt)
                  (prepared outpath y) (prepared outpath x)) as Hres.
    pose proof (render_msc_native_frame E self code (native_format fmt)
                  (prepared outpath y)) as (Hfy & _).
    rewrite Hx in Hres.
    destruct (render_msc_native E self code _ (prepared outpath y)) as [r y1].
    cbn [fst snd files prepared] in *. subst r. by exists y1. }
  repeat case_bool_decide.
  - intros [= <- <- <-]. exists img. split; [simpl; by rewrite Hfx |].
    intros y Hname. rewrite render_msc_run. destruct (Hy y) as (y1 & -> & Hfy).
    rewrite bool_decide_eq_true_2 by done. cbn [fst snd]. unfold write_file.
    cbn [fst snd files]. rewrite Hfy, Hname. split; reflexivity.
  - intros [= <- <- <-]. exists img. split; [simpl; by rewrite Hfx |].
    intros y Hname. rewrite render_msc_run. destruct (Hy y) as (y1 & -> & Hfy).
    rewrite bool_decide_eq_false_2, bool_decide_eq_true_2 by done.
    cbn [fst snd]. unfold write_file. cbn [fst snd files].
    rewrite Hfy, Hname. split; reflexivity.
  - destruct (cairosvg E) as [svg2pdf |] eqn:Hcairo; [| done].
    destruct (svg2pdf img) as [pdf | e] eqn:Hconv; [| done].
    intros [= <- <- <-]. exists pdf. split; [simpl; by rewrite Hfx |].
    intros y Hname. rewrite render_msc_run. destruct (Hy y) as (y1 & -> & Hfy).
    rewrite !bool_decide_eq_false_2, bool_decide_eq_true_2 by done.
    rewrite Hcairo, Hconv. cbn [fst snd]. unfold write_file. cbn [fst snd files].
    rewrite Hfy, Hname. split; reflexivity.
  - done.
Qed.

(** X11: nothing checks whether the file exists.  If the same identifier is
    drawn twice, the second rendering of the same format into the same
    directory gets the name of the first and replaces its image: the file
    holds what the second rendering alone would have written, and nothing
    of the first is left. *)
Theorem repeated_identifier_overwrites (E : Env) (self self' : Translator)
    (code code' outpath : pystr) (fmt : option pystr) (w w1 w2 : World)
    (fn ext fn' ext' : pystr) :
  render_msc E self code outpath fmt w = (Returned (fn, ext), w1) ->
  render_msc E self' code' outpath fmt w1 = (Returned (fn', ext'), w2) ->
  uuid4_str E (S (uuid_calls w)) = uuid4_str E (uuid_calls w) ->
  let path := os_path_join outpath (fn ++ lit "." ++ ext) in
  let alone := render_msc E self' code' outpath fmt w in
  fn' = fn /\ ext' = ext /\
  alone.1 = Returned (fn, ext) /\
  files w2 = files alone.2 /\
  exists data data',
    files w1 !! path = Some data /\
    files alone.2 !! path = Some data' /\
    files w2 !! path = Some data' /\
    files w2 = <[path := data']> (files w).
Proof.
  intros Hr Hr' Huuid path alone. subst path alone.
  destruct (render_msc_extension_length _ _ _ _ _ _ _ _ _ Hr)
    as (Hfn & _ & Hext & Hu & data & Hf).
  destruct (render_msc_extension_length _ _ _ _ _ _ _ _ _ Hr')
    as (Hfn' & _ & Hext' & _).
  assert (Hname : basename E w = basename E w1).
  { unfold basename. by rewrite Hu, Huuid. }
  assert (Hsame_fn : fn' = fn) by congruence.
  assert (Hsame_ext : ext' = ext).
  { destruct Hext as [[-> ->] | [[-> ->] | [-> ->]]];
      by destruct Hext' as [[[=] ->] | [[[=] ->] | [[=] ->]]]. }
  clear Hfn' Hext'. subst fn' ext'.
  destruct (render_msc_written _ _ _ _ _ _ _ _ _ Hr') as (data' & Hf' & Hany).
  destruct (Hany w Hname) as (Halone & Hfalone).
  assert (Hw2 : files w2 =
                  <[os_path_join outpath (fn ++ lit "." ++ ext) := data']> (files w)).
  { by rewrite Hf', Hf, insert_insert_eq. }
  split_and!; try done; [congruence |].
  exists data, data'. rewrite Hf, Hfalone, Hw2, !lookup_insert_eq. done.
Qed.

(** ** Start-up and the HTML visitor agree on the mode *)

(** X12: [builder_inited] and the HTML visitor read [mscgen_js] alike.
    Either the script is handed to [add_javascript], once, and every
    diagram becomes a script container with no renderer call; or no script
    is added and every diagram costs exactly one renderer call.  A page is
    never left with script containers but no script, nor with a script and
    rendered images. *)
Theorem builder_inited_matches_html_visit (app : App) (E : Env)
    (self : Translator) (node : mscgen) (w : World) :
  config (builder self) = app_config app ->
  (exists js,
     config.mscgen_js (app_config app) = Some js /\
     javascripts (builder_inited app) = javascripts app ++ [js] /\
     trace (html_visit_mscgen E self node w).2 = trace w /\
     body (html_visit_mscgen E self node w).2 =
       body w ++
       [starttag self node (lit "script")
          [(lit "type", lit "text/x-mscgen");
           (lit "data-named-style", lit "classic")];
        encode self (code node);
        lit "</script>"]) \/
  (config.mscgen_js (app_config app) = None /\
   builder_inited app = app /\
   popen_calls (trace (html_visit_mscgen E self node w).2) =
     popen_calls (trace w) ++
     [renderer_argv self
        (native_format
           (determine_format E (supported_image_types (builder self))))]).
Proof.
  intros Hcfg. unfold builder_inited, html_visit_mscgen. rewrite Hcfg.
  destruct (config.mscgen_js (app_config app)) as [js |].
  - left. exists js. by rewrite render_msc_html_js_run.
  - right. split; [done |]. split; [done |]. rewrite render_msc_html_run.
    pose proof (render_msc_frame E self (code node)
                  (os_path_join (outdir (builder self)) (html_imgpath self))
                  (determine_format E (supported_image_types (builder self))) w)
      as (_ & Ht).
    by destruct (render_msc E self (code node) _ _ w) as [[[fn ext] | e] w'].
Qed.

(** ** The lines of a directive *)

Lemma str_split_app_sep (sep : N) (a b : pystr) :
  sep ∉ a -> str_split sep (a ++ sep :: b) = a :: str_split sep b.
Proof.
  induction a as [| c a IH]; intros Ha; simpl.
  - by rewrite N.eqb_refl.
  - apply not_elem_of_cons in Ha as [Hc Ha].
    destruct (c =? sep) eqn:Heq; [by apply N.eqb_eq in Heq |].
    by rewrite IH.
Qed.

Lemma str_split_no_sep (sep : N) (a : pystr) :
  sep ∉ a -> str_split sep a = [a].
Proof.
  induction a as [| c a IH]; intros Ha; simpl; [done |].
  apply not_elem_of_cons in Ha as [Hc Ha].
  destruct (c =? sep) eqn:Heq; [by apply N.eqb_eq in Heq |].
  by rewrite IH.
Qed.

(** Joining lines and splitting the result gives the lines back, when
    there is at least one line and no line holds the separator. *)
Lemma str_split_join (sep : N) (parts : list pystr) :
  parts ≠ [] -> Forall (fun part => sep ∉ part) parts ->
  str_split sep (str_join [sep] parts) = parts.
Proof.
  intros Hne Hall. induction Hall as [| part rest Hpart Hrest IH]; [done |].
  destruct rest as [| part' rest].
  - simpl. by apply str_split_no_sep.
  - change (str_join [sep] (part :: part' :: rest))
      with (part ++ sep :: str_join [sep] (part' :: rest)).
    rewrite (str_split_app_sep _ _ _ Hpart). by rewrite IH.
Qed.

Lemma str_join_app (sep : pystr) (l1 l2 : list pystr) :
  l1 ≠ [] -> l2 ≠ [] ->
  str_join sep (l1 ++ l2) = str_join sep l1 ++ sep ++ str_join sep l2.
Proof.
  intros H1 H2. induction l1 as [| part l1 IH]; [done |].
  destruct l1 as [| part' l1].
  - simpl. by destruct l2.
  - change (str_join sep ((part :: part' :: l1) ++ l2))
      with (part ++ sep ++ str_join sep ((part' :: l1) ++ l2)).
    rewrite IH by done. simpl. by rewrite <- !app_assoc.
Qed.

(** X13: nothing of the body is lost in the node.  For a body of at least
    one line, the text stored by the raw directive splits at line feeds
    into the lines of the body; the text stored by the wrapped directive
    splits into the line [msc {], the lines of the body, the line [}] and
    an empty last line. *)
Theorem directive_lines_round_trip (content : list pystr) :
  content ≠ [] -> Forall (fun line => nl ∉ line) content ->
  map (fun node => str_split nl (code node)) (Mscgen_run content) = [content] /\
  exists node,
    MscgenSimple_run content = Returned [node] /\
    str_split nl (code node) = lit "msc {" :: content ++ [lit "}"; []].
Proof.
  intros Hne Hall. split.
  - simpl. by rewrite str_split_join.
  - eexists. split.
    + unfold MscgenSimple_run. by rewrite percent_format_msc_template.
    + cbn [code].
      assert (Htext : lit "msc {" ++ [nl] ++ str_join [nl] content ++ [nl] ++
                      lit "}" ++ [nl] =
                      str_join [nl] (lit "msc {" :: content ++ [lit "}"; []])).
      { change (lit "msc {" :: content ++ [lit "}"; []])
          with ([lit "msc {"] ++ content ++ [lit "}"; []]).
        rewrite !str_join_app; try done. by destruct content. }
      rewrite Htext. apply str_split_join; [done |].
      apply Forall_cons. split; [apply (bool_decide_unpack _); by vm_compute |].
      apply Forall_app. split; [done |].
      apply Forall_cons. split; [apply (bool_decide_unpack _); by vm_compute |].
      apply Forall_cons. split; [apply not_elem_of_nil | by apply Forall_nil].
Qed.

(** ** The further properties at concrete inputs *)

(** The PDF path with a converter that puts a header before the svg. *)
Lemma render_msc_pdf_converts_witness :
  (render_msc (env_pdf (bytes_of_string "<svg/>")) (latex_translator None)
     sample_code (lit "/build/latex") (Some application_pdf) world0).1 =
    Returned (lit "mscgen-6fa459ea-ee8a-4ca4-894e-db77e1603550", lit "pdf") /\
  files (render_msc (env_pdf (bytes_of_string "<svg/>")) (latex_translator None)
           sample_code (lit "/build/latex") (Some application_pdf) world0).2 =
    {[ lit "/build/latex/mscgen-6fa459ea-ee8a-4ca4-894e-db77e1603550.pdf" :=
         bytes_of_string "%PDF-<svg/>" ]}.
Proof.
  destruct (render_msc_pdf_converts (env_pdf (bytes_of_string "<svg/>"))
              (latex_translator None) sample_code (lit "/build/latex") world0
              (fun _ => (0%Z, bytes_of_string "<svg/>", []))
              (bytes_of_string "msc { a,b; a->b; }")
              (fun svg => Returned (bytes_of_string "%PDF-" ++ svg))
              (bytes_of_string "%PDF-<svg/>"))
    as (Hres & Hfiles & _).
  - reflexivity.
  - reflexivity.
  - vm_compute. reflexivity.
  - reflexivity.
  - vm_compute. reflexivity.
  - split; [exact Hres | exact Hfiles].
Defined.

(** A converter that raises after it has created its file: the error is
    raised and the empty file stays. *)
Lemma render_msc_pdf_failures_witness :
  (IO.render_msc faults_converter_leaves_empty_file
     (env_pdf_rejects (bytes_of_string "<svg/>")) (latex_translator None)
     sample_code (lit "/build/latex") (Some application_pdf) world0).1 =
    Raised (ValueError (lit "not an svg document")) /\
  files (IO.render_msc faults_converter_leaves_empty_file
           (env_pdf_rejects (bytes_of_string "<svg/>")) (latex_translator None)
           sample_code (lit "/build/latex") (Some application_pdf) world0).2 =
    {[ lit "/build/latex/mscgen-6fa459ea-ee8a-4ca4-894e-db77e1603550.pdf" := [] ]}.
Proof.
  apply (render_msc_pdf_failures faults_converter_leaves_empty_file
           (env_pdf_rejects (bytes_of_string "<svg/>")) (latex_translator None)
           sample_code (lit "/build/latex") world0 (bytes_of_string "<svg/>")).
  - reflexivity.
  - reflexivity.
Defined.

(** A LaTeX builder, which takes pdf and png, without cairosvg: png. *)
Lemma negotiation_never_needs_missing_cairosvg_witness :
  determine_format (env_ok (bytes_of_string "PNG"))
    (supported_image_types (builder (latex_translator None))) ≠
    Some application_pdf /\
  (render_msc (env_ok (bytes_of_string "PNG")) (latex_translator None)
     sample_code (lit "/build/latex")
     (determine_format (env_ok (bytes_of_string "PNG"))
        (supported_image_types (builder (latex_translator None)))) world0).1 ≠
    Raised (NameError (lit "cairosvg")).
Proof.
  destruct (negotiation_never_needs_missing_cairosvg
              (env_ok (bytes_of_string "PNG")) (latex_translator None)
              sample_code (lit "/build/latex")
              (supported_image_types (builder (latex_translator None))) world0
              eq_refl)
    as (Hpdf & _ & Hname).
  split; [exact Hpdf | exact Hname].
Defined.

(** The HTML builder of the examples, in image mode. *)
Lemma html_visit_renders_svg_witness :
  (html_visit_mscgen (env_ok (bytes_of_string "<svg/>")) (html_translator None)
     {| code := sample_code |} world0).1 = Raised SkipNode /\
  files (html_visit_mscgen (env_ok (bytes_of_string "<svg/>"))
           (html_translator None) {| code := sample_code |} world0).2 =
    {[ lit "/build/html/_images/mscgen-6fa459ea-ee8a-4ca4-894e-db77e1603550.svg" :=
         bytes_of_string "<svg/>" ]} /\
  body (html_visit_mscgen (env_ok (bytes_of_string "<svg/>"))
          (html_translator None) {| code := sample_code |} world0).2 =
    [lit "<p class=" ++ [dquote] ++ lit "mscgen" ++ [dquote] ++ lit ">" ++ [nl];
     lit "<img src=" ++ [dquote] ++
       lit "_images/mscgen-6fa459ea-ee8a-4ca4-894e-db77e1603550.svg" ++ [dquote] ++
       lit " alt=" ++ [dquote] ++ lit "msc { a,b; a-&gt;b; }" ++ [dquote] ++
       lit "/>" ++ [nl];
     lit "</p>" ++ [nl]].
Proof.
  destruct (html_visit_renders_svg (env_ok (bytes_of_string "<svg/>"))
              (html_translator None) {| code := sample_code |} world0
              (fun _ => (0%Z, bytes_of_string "<svg/>", []))
              (bytes_of_string "msc { a,b; a->b; }"))
    as (Hres & Hfiles & _ & Hbody).
  - reflexivity.
  - apply list_elem_of_here.
  - reflexivity.
  - vm_compute. reflexivity.
  - reflexivity.
  - split; [exact Hres |]. split; [exact Hfiles |].
    rewrite Hbody. vm_compute. reflexivity.
Defined.

(** The LaTeX builder of the examples with cairosvg installed. *)
Lemma latex_visit_renders_pdf_witness :
  (latex_visit_mscgen (env_pdf (bytes_of_string "<svg/>")) (latex_translator None)
     {| code := sample_code |} world0).1 = Raised SkipNode /\
  files (latex_visit_mscgen (env_pdf (bytes_of_string "<svg/>"))
           (latex_translator None) {| code := sample_code |} world0).2 =
    {[ lit "/build/latex/mscgen-6fa459ea-ee8a-4ca4-894e-db77e1603550.pdf" :=
         bytes_of_string "%PDF-<svg/>" ]} /\
  body (latex_visit_mscgen (env_pdf (bytes_of_string "<svg/>"))
          (latex_translator None) {| code := sample_code |} world0).2 =
    [[nl] ++
     lit "\noindent\sphinxincludegraphics{{mscgen-6fa459ea-ee8a-4ca4-894e-db77e1603550}.pdf}" ++
     [nl]].
Proof.
  destruct (latex_visit_renders_pdf (env_pdf (bytes_of_string "<svg/>"))
              (latex_translator None) {| code := sample_code |} world0
              (fun _ => (0%Z, bytes_of_string "<svg/>", []))
              (bytes_of_string "msc { a,b; a->b; }")
              (fun svg => Returned (bytes_of_string "%PDF-" ++ svg))
              (bytes_of_string "%PDF-<svg/>"))
    as (Hres & Hfiles & _ & Hbody).
  - reflexivity.
  - apply (bool_decide_unpack _). vm_compute. reflexivity.
  - apply (bool_decide_unpack _). vm_compute. reflexivity.
  - reflexivity.
  - vm_compute. reflexivity.
  - reflexivity.
  - vm_compute. reflexivity.
  - split; [exact Hres |]. split; [exact Hfiles |]. exact Hbody.
Defined.

(** An HTML builder without image path. *)
Lemma html_visit_without_imgpath_witness :
  files (html_visit_mscgen (env_ok (bytes_of_string "<svg/>"))
           bare_html_translator {| code := sample_code |} world0).2 =
    {[ lit "/build/html/./mscgen-6fa459ea-ee8a-4ca4-894e-db77e1603550.svg" :=
         bytes_of_string "<svg/>" ]} /\
  body (html_visit_mscgen (env_ok (bytes_of_string "<svg/>"))
          bare_html_translator {| code := sample_code |} world0).2 =
    [lit "<p class=" ++ [dquote] ++ lit "mscgen" ++ [dquote] ++ lit ">" ++ [nl];
     lit "<img src=" ++ [dquote] ++
       lit "./mscgen-6fa459ea-ee8a-4ca4-894e-db77e1603550.svg" ++ [dquote] ++
       lit " alt=" ++ [dquote] ++ lit "msc { a,b; a-&gt;b; }" ++ [dquote] ++
       lit "/>" ++ [nl];
     lit "</p>" ++ [nl]].
Proof.
  destruct (html_visit_without_imgpath (env_ok (bytes_of_string "<svg/>"))
              bare_html_translator {| code := sample_code |} world0
              (fun _ => (0%Z, bytes_of_string "<svg/>", []))
              (bytes_of_string "msc { a,b; a->b; }"))
    as (_ & Hfiles & _ & Hbody).
  - by left.
  - vm_compute. discriminate.
  - vm_compute. reflexivity.
  - reflexivity.
  - apply list_elem_of_here.
  - reflexivity.
  - vm_compute. reflexivity.
  - reflexivity.
  - split; [exact Hfiles |]. rewrite Hbody. vm_compute. reflexivity.
Defined.

(** Two diagrams in one HTML build: an svg, then a png. *)
Lemma distinct_identifiers_keep_both_files_witness :
  let E := env_ok (bytes_of_string "<svg/>") in
  let dir := lit "/build/html/_images" in
  let w1 := (render_msc E (html_translator None) sample_code dir
               (Some image_svg) world0).2 in
  let w2 := (render_msc E (html_translator None) sample_code dir
               (Some image_png) w1).2 in
  lit "/build/html/_images/mscgen-6fa459ea-ee8a-4ca4-894e-db77e1603550.svg" ≠
  lit "/build/html/_images/mscgen-6fa459ea-ee8a-4ca4-894e-db77e1603551.png" /\
  files w2 !!
    lit "/build/html/_images/mscgen-6fa459ea-ee8a-4ca4-894e-db77e1603550.svg" =
  files w1 !!
    lit "/build/html/_images/mscgen-6fa459ea-ee8a-4ca4-894e-db77e1603550.svg".
Proof.
  intros E dir w1 w2.
  destruct (distinct_identifiers_keep_both_files E (html_translator None)
              (html_translator None) sample_code sample_code dir
              (Some image_svg) (Some image_png) world0 w1 w2
              (lit "mscgen-6fa459ea-ee8a-4ca4-894e-db77e1603550") (lit "svg")
              (lit "mscgen-6fa459ea-ee8a-4ca4-894e-db77e1603551") (lit "png"))
    as (_ & Hpath & _ & _ & Hkept).
  - vm_compute. reflexivity.
  - vm_compute. reflexivity.
  - vm_compute. discriminate.
  - split; [exact Hpath | exact Hkept].
Defined.

(** Two diagrams with an identifier source that repeats itself, and a
    renderer that prints back its input: the second text replaces the
    first. *)
Lemma repeated_identifier_overwrites_witness :
  files (render_msc env_echo (html_translator None) (lit "msc { a,b; }")
           (lit "/build/html/_images") (Some image_svg) world0).2 !!
    os_path_join (lit "/build/html/_images")
      (lit "mscgen-6fa459ea-ee8a-4ca4-894e-db77e1603550" ++ lit "." ++ lit "svg") =
    Some (bytes_of_string "msc { a,b; }") /\
  files (render_msc env_echo (html_translator None) (lit "msc { c,d; }")
           (lit "/build/html/_images") (Some image_svg)
           (render_msc env_echo (html_translator None) (lit "msc { a,b; }")
              (lit "/build/html/_images") (Some image_svg) world0).2).2 !!
    os_path_join (lit "/build/html/_images")
      (lit "mscgen-6fa459ea-ee8a-4ca4-894e-db77e1603550" ++ lit "." ++ lit "svg") =
    Some (bytes_of_string "msc { c,d; }").
Proof.
  destruct (repeated_identifier_overwrites env_echo (html_translator None)
              (html_translator None) (lit "msc { a,b; }") (lit "msc { c,d; }")
              (lit "/build/html/_images") (Some image_svg) world0
              (render_msc env_echo (html_translator None) (lit "msc { a,b; }")
                 (lit "/build/html/_images") (Some image_svg) world0).2
              (render_msc env_echo (html_translator None) (lit "msc { c,d; }")
                 (lit "/build/html/_images") (Some image_svg)
                 (render_msc env_echo (html_translator None) (lit "msc { a,b; }")
                    (lit "/build/html/_images") (Some image_svg) world0).2).2
              (lit "mscgen-6fa459ea-ee8a-4ca4-894e-db77e1603550") (lit "svg")
              (lit "mscgen-6fa459ea-ee8a-4ca4-894e-db77e1603550") (lit "svg"))
    as (_ & _ & _ & _ & data & data' & Hfirst & Halone & Hsecond & _).
  - reflexivity.
  - reflexivity.
  - reflexivity.
  - split.
    + reflexivity.
    + rewrite Hsecond, <- Halone. reflexivity.
Defined.

(** Script mode configured: the script is added once and the visitor runs
    nothing. *)
Lemma builder_inited_matches_html_visit_witness :
  javascripts
    (builder_inited {| app_config := sample_config (Some (lit "mscgen-inpage.js"));
                       javascripts := [] |}) = [lit "mscgen-inpage.js"] /\
  trace (html_visit_mscgen env_missing
           (html_translator (Some (lit "mscgen-inpage.js")))
           {| code := sample_code |} world0).2 = [].
Proof.
  destruct (builder_inited_matches_html_visit
              {| app_config := sample_config (Some (lit "mscgen-inpage.js"));
                 javascripts := [] |}
              env_missing (html_translator (Some (lit "mscgen-inpage.js")))
              {| code := sample_code |} world0 eq_refl)
    as [(js & Hjs & Hadd & Htrace & _) | (Hnone & _)].
  - injection Hjs as <-. split; [exact Hadd | exact Htrace].
  - discriminate Hnone.
Defined.

(** A body of two lines. *)
Lemma directive_lines_round_trip_witness :
  map (fun node => str_split nl (code node))
    (Mscgen_run [lit "a,b;"; lit "a->b;"]) = [[lit "a,b;"; lit "a->b;"]] /\
  exists node,
    MscgenSimple_run [lit "a,b;"; lit "a->b;"] = Returned [node] /\
    str_split nl (code node) =
      lit "msc {" :: [lit "a,b;"; lit "a->b;"] ++ [lit "}"; []].
Proof.
  apply (directive_lines_round_trip [lit "a,b;"; lit "a->b;"]).
  - discriminate.
  - apply (bool_decide_unpack _). vm_compute. reflexivity.
Defined.
